(** * summarizer-api: the request-processing pipeline of [server.js]

    A shallow embedding of the [POST /summarize] handler of
    [src/server.js] (and of its deployment twin [src/server.cjs]) together
    with the JavaScript built-ins it relies on: [String.prototype.slice],
    [trim], [includes], the global regular-expression [replace] that strips
    markdown fences, and [JSON.parse].

    JavaScript strings are sequences of UTF-16 code units; they are
    modelled as lists of code units ([N]).  The three external
    collaborators ([axios.get], [pdf-parse] and the generative model) are
    fields of a [runtime] record, and every call to them is recorded in an
    event trace, so that statements such as "the fetch is never invoked"
    are statements about the trace. *)

From Stdlib Require Import String Ascii List NArith ZArith Bool Lia.
Import ListNotations.

Set Warnings "-register-all".

(* ================================================================== *)
(** ** JavaScript strings *)
(* ================================================================== *)

Definition jsstring := list N.

(** A string literal of the source, as code units (ASCII text only). *)
Definition js (s : string) : jsstring :=
  map N_of_ascii (list_ascii_of_string s).

(** The same, for test inputs that contain double quotes: every
    apostrophe of [s] stands for a double quote (U+0022). *)
Definition dq (s : string) : jsstring :=
  map (fun c => if N.eqb c 39 then 34%N else c) (js s).

Abbreviation LF := 10%N (only parsing).
Abbreviation BACKTICK := 96%N (only parsing).

Fixpoint jsstring_eqb (a b : jsstring) : bool :=
  match a, b with
  | [], [] => true
  | x :: a', y :: b' => N.eqb x y && jsstring_eqb a' b'
  | _, _ => false
  end.

(** [s.startsWith(p)] *)
Fixpoint starts_with (p s : jsstring) : bool :=
  match p, s with
  | [], _ => true
  | x :: p', y :: s' => N.eqb x y && starts_with p' s'
  | _ :: _, [] => false
  end.

(** [s.includes(p)]: [p] occurs somewhere in [s]. *)
Fixpoint includes (s p : jsstring) : bool :=
  starts_with p s ||
  match s with
  | [] => false
  | _ :: s' => includes s' p
  end.

(** [s.slice(start, end)] with both arguments given, after ECMA-262
    (negative indices count from the end, both are clamped to the length). *)
Definition slice (s : jsstring) (start end_ : Z) : jsstring :=
  let len := Z.of_nat (length s) in
  let from := if (start <? 0)%Z then Z.max (len + start) 0 else Z.min start len in
  let to := if (end_ <? 0)%Z then Z.max (len + end_) 0 else Z.min end_ len in
  firstn (Z.to_nat (Z.max (to - from) 0)) (skipn (Z.to_nat from) s).

(** ECMA-262 WhiteSpace and LineTerminator code points, the set removed by
    [trim]. *)
Definition is_whitespace (c : N) : bool :=
  ((9 <=? c) && (c <=? 13) || (c =? 32) || (c =? 160) || (c =? 5760)
   || (8192 <=? c) && (c <=? 8202) || (c =? 8232) || (c =? 8233)
   || (c =? 8239) || (c =? 8287) || (c =? 12288) || (c =? 65279))%N.

Fixpoint trim_start (s : jsstring) : jsstring :=
  match s with
  | [] => []
  | c :: r => if is_whitespace c then trim_start r else s
  end.

Definition trim_end (s : jsstring) : jsstring :=
  rev (trim_start (rev s)).

(** [s.trim()] *)
Definition trim (s : jsstring) : jsstring := trim_end (trim_start s).

(** The first alternative of a regular expression [a1|a2|...] of literal
    alternatives that matches at the head of [s]. *)
Fixpoint first_match (alts : list jsstring) (s : jsstring) : option jsstring :=
  match alts with
  | [] => None
  | a :: alts' => if starts_with a s then Some a else first_match alts' s
  end.

(** [s.replace(/a1|a2|.../g, '')] for literal alternatives: the string is
    scanned from left to right; at each position the alternatives are tried
    in order, a match is deleted and the scan resumes after it; where none
    matches the code unit is kept.  [skip] counts the code units of the
    current match that are still to be dropped. *)
Fixpoint delete_matches (alts : list jsstring) (skip : nat) (s : jsstring)
  : jsstring :=
  match s with
  | [] => []
  | c :: r =>
      match skip with
      | S k => delete_matches alts k r
      | O =>
          match first_match alts s with
          | Some (_ :: m) => delete_matches alts (length m) r
          | _ => c :: delete_matches alts 0 r
          end
      end
  end.

Definition replace_all_with_empty (alts : list jsstring) (s : jsstring)
  : jsstring :=
  delete_matches alts 0 s.

(** [p] occurs in [s] at some offset. *)
Definition occurs_in (p s : jsstring) : Prop :=
  exists pre post, s = pre ++ p ++ post.

(* ================================================================== *)
(** ** JSON values and [JSON.parse] *)
(* ================================================================== *)

(** A JSON number as it is written: sign, integer digits, fraction digits
    and decimal exponent (digits as their values 0..9, in source order).
    The Number that [JSON.parse] returns is the rounding of this literal to
    a double, and so a function of it.  The literal is kept, not the
    double: two literals may stand for one Number, and how a Number is
    written back for a client (a literal too large for a double comes back
    as null) is not part of this development. *)
Record number_literal := {
  negative : bool;
  int_digits : list N;
  frac_digits : list N;
  exp_negative : bool;
  exp_digits : list N
}.

(** The value of a JSON text.  An object holds its fields in the order
    in which their keys first appear; that JavaScript enumerates keys that
    look like array indices before the others is not modelled (property
    lookup, all the handler does with an object, is not affected). *)
Inductive json :=
| JNull
| JBool (b : bool)
| JNumber (n : number_literal)
| JString (s : jsstring)
| JArray (elements : list json)
| JObject (fields : list (jsstring * json)).

(** A JavaScript value that came out of a JSON document, or [undefined]
    ([None]) for a property that is absent. *)
Definition jsvalue := option json.

(** Property lookup [o.k] on the fields of an object. *)
Fixpoint get_property (k : jsstring) (o : list (jsstring * json)) : jsvalue :=
  match o with
  | [] => None
  | (k', v) :: r => if jsstring_eqb k k' then Some v else get_property k r
  end.

(** Property definition: a duplicate key overwrites the earlier value. *)
Fixpoint set_property (k : jsstring) (v : json) (o : list (jsstring * json))
  : list (jsstring * json) :=
  match o with
  | [] => [(k, v)]
  | (k', v') :: r =>
      if jsstring_eqb k k' then (k', v) :: r else (k', v') :: set_property k v r
  end.

Definition digits_value (ds : list N) : Z :=
  fold_left (fun acc d => (10 * acc + Z.of_N d)%Z) ds 0%Z.

(** Whether the literal denotes the Number [0] or [-0]: its mathematical
    value m * 10^e is rounded to the nearest double, ties to even, and the
    result is zero exactly when m * 10^e <= 2^-1075. *)
Definition number_is_zero (n : number_literal) : bool :=
  let m := digits_value (int_digits n ++ frac_digits n) in
  let x := digits_value (exp_digits n) in
  let e := ((if exp_negative n then - x else x)
            - Z.of_nat (length (frac_digits n)))%Z in
  (m =? 0)%Z || ((e <? 0)%Z && (m * 2 ^ 1075 <=? 10 ^ (- e))%Z).

(** ECMA-262 ToBoolean, as applied by the operator [!]. *)
Definition to_boolean (v : jsvalue) : bool :=
  match v with
  | None => false
  | Some JNull => false
  | Some (JBool b) => b
  | Some (JNumber n) => negb (number_is_zero n)
  | Some (JString s) => match s with [] => false | _ => true end
  | Some (JArray _) => true
  | Some (JObject _) => true
  end.

(** *** Lexical analysis *)

Inductive token :=
| TLBrace | TRBrace | TLBracket | TRBracket | TColon | TComma
| TString (s : jsstring)
| TNumber (n : number_literal)
| TTrue | TFalse | TNull.

(** The three literal names. *)
Inductive literal := LitTrue | LitFalse | LitNull.

Definition literal_text (w : literal) : jsstring :=
  match w with
  | LitTrue => js "true"
  | LitFalse => js "false"
  | LitNull => js "null"
  end.

Definition literal_token (w : literal) : token :=
  match w with
  | LitTrue => TTrue
  | LitFalse => TFalse
  | LitNull => TNull
  end.

(** Where the scanner stands inside a number:
    [-]  [0]  [1-9][0-9]*  [.]  [.][0-9]+  [eE]  [eE][+-]  [eE][+-]?[0-9]+ *)
Inductive num_state :=
| NMinus | NZero | NInt | NDot | NFrac | NExp | NExpSign | NExpDigits.

Inductive lex_state :=
| LOut                                   (* between tokens *)
| LStr (acc : jsstring)                  (* inside a string literal *)
| LEsc (acc : jsstring)                  (* after a backslash *)
| LHex (acc : jsstring) (hex : list N)   (* after \u and up to 3 hex digits *)
| LNum (ns : num_state) (lit : number_literal)
| LWord (w : literal) (matched : nat).   (* inside true, false or null *)

Definition is_json_whitespace (c : N) : bool :=
  ((c =? 9) || (c =? 10) || (c =? 13) || (c =? 32))%N.

Definition digit_value (c : N) : option N :=
  if ((48 <=? c) && (c <=? 57))%N then Some (c - 48)%N else None.

Definition hex_value (c : N) : option N :=
  if ((48 <=? c) && (c <=? 57))%N then Some (c - 48)%N
  else if ((65 <=? c) && (c <=? 70))%N then Some (c - 55)%N
  else if ((97 <=? c) && (c <=? 102))%N then Some (c - 87)%N
  else None.

Definition hex_code (hs : list N) : N :=
  fold_left (fun acc h => (16 * acc + h)%N) hs 0%N.

Definition empty_number : number_literal :=
  {| negative := false; int_digits := []; frac_digits := [];
     exp_negative := false; exp_digits := [] |}.

Definition add_int_digit (l : number_literal) (d : N) : number_literal :=
  {| negative := negative l; int_digits := int_digits l ++ [d];
     frac_digits := frac_digits l;
     exp_negative := exp_negative l; exp_digits := exp_digits l |}.

Definition add_frac_digit (l : number_literal) (d : N) : number_literal :=
  {| negative := negative l; int_digits := int_digits l;
     frac_digits := frac_digits l ++ [d];
     exp_negative := exp_negative l; exp_digits := exp_digits l |}.

Definition add_exp_digit (l : number_literal) (d : N) : number_literal :=
  {| negative := negative l; int_digits := int_digits l;
     frac_digits := frac_digits l;
     exp_negative := exp_negative l; exp_digits := exp_digits l ++ [d] |}.

Definition set_exp_negative (l : number_literal) : number_literal :=
  {| negative := negative l; int_digits := int_digits l;
     frac_digits := frac_digits l;
     exp_negative := true; exp_digits := exp_digits l |}.

(** A number may end in these states. *)
Definition num_final (ns : num_state) : bool :=
  match ns with
  | NZero | NInt | NFrac | NExpDigits => true
  | NMinus | NDot | NExp | NExpSign => false
  end.

Definition is_exp_mark (c : N) : bool := ((c =? 101) || (c =? 69))%N.

(** One more code unit of a number, or [None] when [c] does not continue
    it. *)
Definition num_step (ns : num_state) (l : number_literal) (c : N)
  : option (num_state * number_literal) :=
  match ns with
  | NMinus =>
      match digit_value c with
      | Some d => Some (if (d =? 0)%N then NZero else NInt, add_int_digit l d)
      | None => None
      end
  | NZero =>
      if (c =? 46)%N then Some (NDot, l)
      else if is_exp_mark c then Some (NExp, l)
      else None
  | NInt =>
      match digit_value c with
      | Some d => Some (NInt, add_int_digit l d)
      | None =>
          if (c =? 46)%N then Some (NDot, l)
          else if is_exp_mark c then Some (NExp, l)
          else None
      end
  | NDot =>
      match digit_value c with
      | Some d => Some (NFrac, add_frac_digit l d)
      | None => None
      end
  | NFrac =>
      match digit_value c with
      | Some d => Some (NFrac, add_frac_digit l d)
      | None => if is_exp_mark c then Some (NExp, l) else None
      end
  | NExp =>
      match digit_value c with
      | Some d => Some (NExpDigits, add_exp_digit l d)
      | None =>
          if (c =? 43)%N then Some (NExpSign, l)
          else if (c =? 45)%N then Some (NExpSign, set_exp_negative l)
          else None
      end
  | NExpSign | NExpDigits =>
      match digit_value c with
      | Some d => Some (NExpDigits, add_exp_digit l d)
      | None => None
      end
  end.

(** A code unit met between tokens. *)
Definition lex_start (c : N) : option (lex_state * list token) :=
  if is_json_whitespace c then Some (LOut, [])
  else if (c =? 123)%N then Some (LOut, [TLBrace])
  else if (c =? 125)%N then Some (LOut, [TRBrace])
  else if (c =? 91)%N then Some (LOut, [TLBracket])
  else if (c =? 93)%N then Some (LOut, [TRBracket])
  else if (c =? 58)%N then Some (LOut, [TColon])
  else if (c =? 44)%N then Some (LOut, [TComma])
  else if (c =? 34)%N then Some (LStr [], [])
  else if (c =? 45)%N then
    Some (LNum NMinus
            {| negative := true; int_digits := []; frac_digits := [];
               exp_negative := false; exp_digits := [] |}, [])
  else if (c =? 116)%N then Some (LWord LitTrue 1, [])
  else if (c =? 102)%N then Some (LWord LitFalse 1, [])
  else if (c =? 110)%N then Some (LWord LitNull 1, [])
  else
    match digit_value c with
    | Some d =>
        Some (LNum (if (d =? 0)%N then NZero else NInt)
                (add_int_digit empty_number d), [])
    | None => None
    end.

(** The character an escape sequence [\c] stands for. *)
Definition escape_char (c : N) : option N :=
  if (c =? 34)%N then Some 34%N
  else if (c =? 92)%N then Some 92%N
  else if (c =? 47)%N then Some 47%N
  else if (c =? 98)%N then Some 8%N
  else if (c =? 102)%N then Some 12%N
  else if (c =? 110)%N then Some 10%N
  else if (c =? 114)%N then Some 13%N
  else if (c =? 116)%N then Some 9%N
  else None.

(** One code unit of input: the next state and the tokens completed. *)
Definition lex_step (st : lex_state) (c : N) : option (lex_state * list token) :=
  match st with
  | LOut => lex_start c
  | LStr acc =>
      if (c =? 34)%N then Some (LOut, [TString acc])
      else if (c =? 92)%N then Some (LEsc acc, [])
      else if (c <? 32)%N then None
      else Some (LStr (acc ++ [c]), [])
  | LEsc acc =>
      if (c =? 117)%N then Some (LHex acc [], [])
      else
        match escape_char c with
        | Some e => Some (LStr (acc ++ [e]), [])
        | None => None
        end
  | LHex acc hs =>
      match hex_value c with
      | Some h =>
          if Nat.eqb (length hs) 3
          then Some (LStr (acc ++ [hex_code (hs ++ [h])]), [])
          else Some (LHex acc (hs ++ [h]), [])
      | None => None
      end
  | LNum ns lit =>
      match num_step ns lit c with
      | Some (ns', lit') => Some (LNum ns' lit', [])
      | None =>
          if num_final ns then
            match lex_start c with
            | Some (st', out) => Some (st', TNumber lit :: out)
            | None => None
            end
          else None
      end
  | LWord w matched =>
      match nth_error (literal_text w) matched with
      | Some x =>
          if (c =? x)%N then
            if Nat.eqb (S matched) (length (literal_text w))
            then Some (LOut, [literal_token w])
            else Some (LWord w (S matched), [])
          else None
      | None => None
      end
  end.

(** End of input. *)
Definition lex_finish (st : lex_state) : option (list token) :=
  match st with
  | LOut => Some []
  | LNum ns lit => if num_final ns then Some [TNumber lit] else None
  | _ => None
  end.

Fixpoint lex_from (st : lex_state) (s : jsstring) : option (list token) :=
  match s with
  | [] => lex_finish st
  | c :: r =>
      match lex_step st c with
      | Some (st', out) =>
          match lex_from st' r with
          | Some ts => Some (out ++ ts)
          | None => None
          end
      | None => None
      end
  end.

Definition lex (s : jsstring) : option (list token) := lex_from LOut s.

(** *** Syntactic analysis, with an explicit stack of open containers *)

Inductive frame :=
| InArray (elements : list json)
| InObject (fields : list (jsstring * json)) (key : jsstring).

Inductive parse_state :=
| PValue (stack : list frame)             (* a value is expected *)
| PArrayFirst (stack : list frame)        (* after [  *)
| PArrayNext (elements : list json) (stack : list frame)
| PObjectFirst (stack : list frame)       (* after {  *)
| PObjectKey (fields : list (jsstring * json)) (stack : list frame)
| PObjectColon (fields : list (jsstring * json)) (key : jsstring)
               (stack : list frame)
| PObjectNext (fields : list (jsstring * json)) (stack : list frame)
| PDone (v : json).                       (* the whole text was one value *)

(** A value is complete: hand it to the innermost open container. *)
Definition complete (v : json) (stack : list frame) : parse_state :=
  match stack with
  | [] => PDone v
  | InArray elements :: stack' => PArrayNext (elements ++ [v]) stack'
  | InObject fields key :: stack' =>
      PObjectNext (set_property key v fields) stack'
  end.

Definition parse_value_token (stack : list frame) (t : token)
  : option parse_state :=
  match t with
  | TNull => Some (complete JNull stack)
  | TTrue => Some (complete (JBool true) stack)
  | TFalse => Some (complete (JBool false) stack)
  | TNumber n => Some (complete (JNumber n) stack)
  | TString s => Some (complete (JString s) stack)
  | TLBracket => Some (PArrayFirst stack)
  | TLBrace => Some (PObjectFirst stack)
  | TRBrace | TRBracket | TColon | TComma => None
  end.

Definition parse_step (st : parse_state) (t : token) : option parse_state :=
  match st with
  | PValue stack => parse_value_token stack t
  | PArrayFirst stack =>
      match t with
      | TRBracket => Some (complete (JArray []) stack)
      | _ => parse_value_token (InArray [] :: stack) t
      end
  | PArrayNext elements stack =>
      match t with
      | TComma => Some (PValue (InArray elements :: stack))
      | TRBracket => Some (complete (JArray elements) stack)
      | _ => None
      end
  | PObjectFirst stack =>
      match t with
      | TRBrace => Some (complete (JObject []) stack)
      | TString k => Some (PObjectColon [] k stack)
      | _ => None
      end
  | PObjectKey fields stack =>
      match t with
      | TString k => Some (PObjectColon fields k stack)
      | _ => None
      end
  | PObjectColon fields key stack =>
      match t with
      | TColon => Some (PValue (InObject fields key :: stack))
      | _ => None
      end
  | PObjectNext fields stack =>
      match t with
      | TComma => Some (PObjectKey fields stack)
      | TRBrace => Some (complete (JObject fields) stack)
      | _ => None
      end
  | PDone _ => None
  end.

Fixpoint parse_tokens (st : parse_state) (ts : list token) : option parse_state :=
  match ts with
  | [] => Some st
  | t :: ts' =>
      match parse_step st t with
      | Some st' => parse_tokens st' ts'
      | None => None
      end
  end.

(** The value a JSON text denotes, or [None] where [JSON.parse] throws a
    SyntaxError. *)
Definition parse_json_text (s : jsstring) : option json :=
  match lex s with
  | Some ts =>
      match parse_tokens (PValue []) ts with
      | Some (PDone v) => Some v
      | _ => None
      end
  | None => None
  end.

(* ================================================================== *)
(** ** Errors, events and the execution monad *)
(* ================================================================== *)

(** A thrown [Error] object.  What the engine and the three libraries
    throw are Error objects with a string [message], the one field the
    handler reads. *)
Record js_error := { message : jsstring }.

(** The bytes of a downloaded document. *)
Definition buffer := list N.

(** An argument of [console.error]. *)
Inductive logged :=
| LogString (s : jsstring)
| LogError (e : js_error).

(** What a request does to the outside world, in the order it happens.
    [Respond status body] records the call [res.status(status).json(body)]
    with the value handed to it; the bytes a client receives are Express's
    serialization of that value, which is not modelled. *)
Inductive event :=
| CallAxiosGet (url : jsvalue)              (* axios.get(url, ...) *)
| CallPdfParser (data : buffer)             (* pdfParser(response.data) *)
| CallGenerateContent (prompt : jsstring)   (* ai.models.generateContent *)
| ConsoleError (args : list logged)
| Respond (status : Z) (body : json).       (* res.status(..).json(body) *)

Inductive outcome (A : Type) :=
| Returned (a : A)
| Thrown (e : js_error).
Arguments Returned {A} a.
Arguments Thrown {A} e.

(** A computation reads the history of events so far and yields its
    outcome together with the events it adds.  Each [await] of the source
    is a sequencing point: the awaited call has completed, or thrown,
    before the next statement runs. *)
Definition exec (A : Type) := list event -> outcome A * list event.

Definition ret {A} (a : A) : exec A := fun _ => (Returned a, []).

Definition throw {A} (e : js_error) : exec A := fun _ => (Thrown e, []).

Definition bind {A B} (m : exec A) (k : A -> exec B) : exec B :=
  fun h =>
    match m h with
    | (Returned a, e1) => let (r, e2) := k a (h ++ e1) in (r, e1 ++ e2)
    | (Thrown e, e1) => (Thrown e, e1)
    end.

Notation "x <- m ;; k" := (bind m (fun x => k))
  (at level 61, m at next level, right associativity).
Notation "m ;;; k" := (bind m (fun _ => k))
  (at level 61, right associativity).

(** [try { m } catch (error) { handler }] *)
Definition try_catch {A} (m : exec A) (handler : js_error -> exec A) : exec A :=
  fun h =>
    match m h with
    | (Returned a, e1) => (Returned a, e1)
    | (Thrown err, e1) =>
        let (r, e2) := handler err (h ++ e1) in (r, e1 ++ e2)
    end.

Definition emit (ev : event) : exec unit := fun _ => (Returned tt, [ev]).

(** The JavaScript engine and the three libraries the server calls.  A
    collaborator sees the history, so that it may answer the same question
    differently at different times.  On success the libraries hand back
    what the server reads from their results: the downloaded bytes, the
    extracted text and the text of the model (both strings).  The model
    name and the JSON response type of the generation call are constants
    of the source and are left out of the event. *)
Record runtime := {
  (** the message of the SyntaxError that [JSON.parse] throws on a text *)
  syntax_error_message : jsstring -> jsstring;
  (** the message of the TypeError that destructuring [undefined] throws *)
  type_error_message : jsstring;
  (** [axios.get(url, { responseType: 'arraybuffer' })]: [response.data] *)
  axios_get : list event -> jsvalue -> outcome buffer;
  (** [pdfParser(data)]: [data.text] *)
  pdfParser : list event -> buffer -> outcome jsstring;
  (** [ai.models.generateContent({...})]: [response.text] *)
  generateContent : list event -> jsstring -> outcome jsstring
}.

(** A stubbed runtime answers by its arguments alone. *)
Definition stubbed (rt : runtime) : Prop :=
  (forall h h' url, axios_get rt h url = axios_get rt h' url) /\
  (forall h h' data, pdfParser rt h data = pdfParser rt h' data) /\
  (forall h h' p, generateContent rt h p = generateContent rt h' p).

Definition call_axios_get (rt : runtime) (url : jsvalue) : exec buffer :=
  fun h => (axios_get rt h url, [CallAxiosGet url]).

Definition call_pdfParser (rt : runtime) (data : buffer) : exec jsstring :=
  fun h => (pdfParser rt h data, [CallPdfParser data]).

Definition call_generateContent (rt : runtime) (p : jsstring) : exec jsstring :=
  fun h => (generateContent rt h p, [CallGenerateContent p]).

Definition console_error (args : list logged) : exec unit :=
  emit (ConsoleError args).

(** [res.status(status).json(body)].  The handler passes it two literal
    objects and values that [JSON.parse] returned, which always serialize:
    the call does not throw. *)
Definition respond (status : Z) (body : json) : exec unit :=
  emit (Respond status body).

(** [JSON.parse(s)] *)
Definition JSON_parse (rt : runtime) (s : jsstring) : exec json :=
  match parse_json_text s with
  | Some v => ret v
  | None => throw {| message := syntax_error_message rt s |}
  end.

(** The alternatives of the regular expression that strips the fences:
    an opening fence tagged json with its line feed, or a line feed with a
    closing fence. *)
Definition opening_fence : jsstring := js "```json" ++ [LF].
Definition closing_fence : jsstring := [LF] ++ js "```".
Definition fence_alternatives : list jsstring := [opening_fence; closing_fence].

Definition error_400 : json :=
  JObject [(js "error", JString (js "Missing 'url' or 'title' in request body."))].

Definition details_json : jsstring := js "AI structure error or malformed response.".
Definition details_pdf : jsstring := js "External PDF access failure.".

Definition error_500 (error : js_error) : json :=
  JObject
    [(js "error", JString (js "Failed to process document or generate summary."));
     (js "details",
      JString (if includes (message error) (js "JSON")
               then details_json else details_pdf))].

(* ================================================================== *)
(** ** Response headers *)
(* ================================================================== *)

(** Header names are ASCII tokens and are compared without regard to
    letter case: Node keeps the headers of a response under their
    lower-cased names. *)
Definition to_lower_unit (c : N) : N :=
  if ((65 <=? c) && (c <=? 90))%N then (c + 32)%N else c.

Definition to_lower (s : jsstring) : jsstring := map to_lower_unit s.

(** The headers of a response, under their lower-cased names. *)
Definition headers := list (jsstring * jsstring).

Fixpoint lookup_header (key : jsstring) (hs : headers) : option jsstring :=
  match hs with
  | [] => None
  | (k, v) :: r => if jsstring_eqb key k then Some v else lookup_header key r
  end.

Fixpoint store_header (key value : jsstring) (hs : headers) : headers :=
  match hs with
  | [] => [(key, value)]
  | (k, v) :: r =>
      if jsstring_eqb key k then (k, value) :: r
      else (k, v) :: store_header key value r
  end.

(** [res.getHeader(name)] *)
Definition get_header (name : jsstring) (hs : headers) : option jsstring :=
  lookup_header (to_lower name) hs.

(** [res.header(name, value)]: the value replaces an earlier one.  (For
    the name Content-Type alone Express may extend the value with a
    charset; the server sets no such header this way.) *)
Definition set_header (name value : jsstring) (hs : headers) : headers :=
  store_header (to_lower name) value hs.

(** What a middleware sees of the request. *)
Record request := {
  req_method : jsstring;
  req_path : jsstring;
  req_headers : headers
}.

(** Whether a middleware hands the request on. *)
Inductive control := CallsNext | EndsRequest.

(* ================================================================== *)
(** ** [src/server.js] *)
(* ================================================================== *)

Module ServerJs.
Section Server.
Context (rt : runtime).

Definition extractTextFromPdf (url : jsvalue) : exec jsstring :=
  response <- call_axios_get rt url ;;
  data <- call_pdfParser rt response ;;
  ret data.

(** The text before the interpolation of the template literal. *)
Definition template : jsstring :=
  js "Act as an expert UPSC analyst. Summarize the text into Gist (2 sentences, positive tone), 5 Key Points (HTML bullet list), and Relevance (who needs this document). Respond ONLY in structured JSON format. Document Text: ".

Definition prompt (text : jsstring) : jsstring :=
  template ++ slice text 0 15000.

(** [response.text.trim().replace(/```json\n|\n```/g, '').trim()] *)
Definition jsonString (response_text : jsstring) : jsstring :=
  trim (replace_all_with_empty fence_alternatives (trim response_text)).

Definition generateSummary (text : jsstring) (title : jsvalue) : exec json :=
  response <- call_generateContent rt (prompt text) ;;
  JSON_parse rt (jsonString response).

(** The body of the [try] block of the handler. *)
Definition try_block (url title : jsvalue) : exec unit :=
  documentText <- extractTextFromPdf url ;;
  summary <- generateSummary documentText title ;;
  respond 200 summary.

Definition catch_block (error : js_error) : exec unit :=
  console_error [LogString (js "Microservice Error Processing:");
                 LogString (message error)] ;;;
  respond 500 (error_500 error).

(** [app.post('/summarize', async (req, res) => ...)] from its first line
    on, for a [req.body] that is an object, given by its fields (an array,
    which has neither property, behaves as the object without fields). *)
Definition summarize (body : list (jsstring * json)) : exec unit :=
  let url := get_property (js "url") body in
  let title := get_property (js "title") body in
  if negb (to_boolean url) || negb (to_boolean title) then
    respond 400 error_400
  else
    try_catch (try_block url title) catch_block.

(** The whole handler, on [req.body] as the JSON middleware leaves it: an
    object, or [undefined] ([None]) where no body was parsed (Express 5;
    Express 4 puts an empty object there).  The destructuring in the first
    line of the handler stands before the gate and outside the [try]: of
    [undefined] it throws a TypeError that nothing in the handler
    catches. *)
Definition handler (req_body : option (list (jsstring * json))) : exec unit :=
  match req_body with
  | None => throw {| message := type_error_message rt |}
  | Some body => summarize body
  end.

(** Requests with a parsed body, served one after the other by the same
    process. *)
Fixpoint serve (requests : list (list (jsstring * json))) : exec unit :=
  match requests with
  | [] => ret tt
  | body :: rest => summarize body ;;; serve rest
  end.

(** The CORS middleware [app.use((req, res, next) => ...)], on the headers
    of the response. *)
Definition cors (req : request) (hs : headers) : headers * control :=
  let hs := set_header (js "Access-Control-Allow-Origin") (js "*") hs in
  let hs := set_header (js "Access-Control-Allow-Headers") (js "Content-Type") hs in
  let hs := set_header (js "Access-Control-Allow-Methods") (js "POST, OPTIONS") hs in
  (hs, CallsNext).
End Server.
End ServerJs.

(* ================================================================== *)
(** ** [src/server.cjs] *)
(* ================================================================== *)

Module ServerCjs.
Section Server.
Context (rt : runtime).

Definition extractTextFromPdf (url : jsvalue) : exec jsstring :=
  response <- call_axios_get rt url ;;
  data <- call_pdfParser rt response ;;
  ret data.

Definition template : jsstring :=
  js "Act as an expert UPSC analyst. Summarize the text into Gist (2 sentences, positive tone), 5 Key Points (HTML bullet list), and Relevance (who needs this document). Respond ONLY in structured JSON format. Document Text: ".

Definition prompt (text : jsstring) : jsstring :=
  template ++ slice text 0 15000.

Definition jsonString (response_text : jsstring) : jsstring :=
  trim (replace_all_with_empty fence_alternatives (trim response_text)).

Definition generateSummary (text : jsstring) (title : jsvalue) : exec json :=
  response <- call_generateContent rt (prompt text) ;;
  JSON_parse rt (jsonString response).

Definition try_block (url title : jsvalue) : exec unit :=
  documentText <- extractTextFromPdf url ;;
  summary <- generateSummary documentText title ;;
  respond 200 summary.

(** This file logs the error object itself, not its message. *)
Definition catch_block (error : js_error) : exec unit :=
  console_error [LogString (js "Microservice Error Processing:");
                 LogError error] ;;;
  respond 500 (error_500 error).

Definition summarize (body : list (jsstring * json)) : exec unit :=
  let url := get_property (js "url") body in
  let title := get_property (js "title") body in
  if negb (to_boolean url) || negb (to_boolean title) then
    respond 400 error_400
  else
    try_catch (try_block url title) catch_block.

(** The whole handler: as in [server.js], [req.body] is destructured
    before the gate and outside the [try]. *)
Definition handler (req_body : option (list (jsstring * json))) : exec unit :=
  match req_body with
  | None => throw {| message := type_error_message rt |}
  | Some body => summarize body
  end.
End Server.
End ServerCjs.

(* ================================================================== *)
(** ** Reading a trace *)
(* ================================================================== *)

(** The responses sent, as status and body. *)
Fixpoint responses (evs : list event) : list (Z * json) :=
  match evs with
  | [] => []
  | Respond status body :: r => (status, body) :: responses r
  | _ :: r => responses r
  end.

Definition is_call (ev : event) : bool :=
  match ev with
  | CallAxiosGet _ | CallPdfParser _ | CallGenerateContent _ => true
  | ConsoleError _ | Respond _ _ => false
  end.

(** The calls made to the collaborators. *)
Definition calls (evs : list event) : list event := filter is_call evs.

Definition is_generation_call (ev : event) : bool :=
  match ev with
  | CallGenerateContent _ => true
  | _ => false
  end.

(* ================================================================== *)
(** ** A stubbed runtime with fixed answers, for concrete runs *)
(* ================================================================== *)

Definition stub_syntax_error_message (s : jsstring) : jsstring :=
  js "Unexpected token, " ++ [34%N] ++ s ++ [34%N] ++ js " is not valid JSON".

Definition stub_runtime (fetched : outcome buffer) (extracted : outcome jsstring)
  (generated : outcome jsstring) : runtime :=
  {| syntax_error_message := stub_syntax_error_message;
     type_error_message :=
       js "Cannot destructure property 'url' of 'req.body' as it is undefined.";
     axios_get := fun _ _ => fetched;
     pdfParser := fun _ _ => extracted;
     generateContent := fun _ _ => generated |}.

Definition sample_pdf : buffer := [37; 80; 68; 70]%N.

Definition sample_body (url title : jsstring) : list (jsstring * json) :=
  [(js "url", JString url); (js "title", JString title)].

Definition sample_url : jsstring := js "https://example.org/notice.pdf".

(** The fenced model output of the specification's example. *)
Definition fenced_output : jsstring :=
  js "```json" ++ [LF]
  ++ dq "{'gist':'a','keyPoints':'<ul></ul>','relevance':'b'}"
  ++ [LF] ++ js "```".

Definition sample_summary : json :=
  JObject [(js "gist", JString (js "a"));
           (js "keyPoints", JString (js "<ul></ul>"));
           (js "relevance", JString (js "b"))].

(* ================================================================== *)
(** ** Auxiliary definitions for the statements *)
(* ================================================================== *)

(** What [server.js] writes to the console in its [catch] block. *)
Definition log_js (e : js_error) : event :=
  ConsoleError [LogString (js "Microservice Error Processing:");
                LogString (message e)].

(** What [server.cjs] writes to the console in its [catch] block. *)
Definition log_cjs (e : js_error) : event :=
  ConsoleError [LogString (js "Microservice Error Processing:"); LogError e].

(** The two bodies a 500 response can have. *)
Definition error_500_json : json :=
  JObject
    [(js "error", JString (js "Failed to process document or generate summary."));
     (js "details", JString (js "AI structure error or malformed response."))].

Definition error_500_pdf : json :=
  JObject
    [(js "error", JString (js "Failed to process document or generate summary."));
     (js "details", JString (js "External PDF access failure."))].

(** The events of a validated request, by the answers of the
    collaborators. *)
Definition expected_events (rt : runtime) (url : jsvalue) (h : list event)
  : list event :=
  match axios_get rt h url with
  | Thrown e => [CallAxiosGet url; log_js e; Respond 500 (error_500 e)]
  | Returned data =>
      match pdfParser rt (h ++ [CallAxiosGet url]) data with
      | Thrown e =>
          [CallAxiosGet url; CallPdfParser data;
           log_js e; Respond 500 (error_500 e)]
      | Returned text =>
          let p := ServerJs.prompt text in
          match generateContent rt
                  (h ++ [CallAxiosGet url; CallPdfParser data]) p with
          | Thrown e =>
              [CallAxiosGet url; CallPdfParser data; CallGenerateContent p;
               log_js e; Respond 500 (error_500 e)]
          | Returned raw =>
              match parse_json_text (ServerJs.jsonString raw) with
              | None =>
                  let e := {| message :=
                                syntax_error_message rt (ServerJs.jsonString raw) |} in
                  [CallAxiosGet url; CallPdfParser data; CallGenerateContent p;
                   log_js e; Respond 500 (error_500 e)]
              | Some summary =>
                  [CallAxiosGet url; CallPdfParser data; CallGenerateContent p;
                   Respond 200 summary]
              end
          end
      end
  end.

Definition is_log (ev : event) : bool :=
  match ev with
  | ConsoleError _ => true
  | _ => false
  end.

(** A code unit that a string literal takes as it is. *)
Definition is_plain_string_char (c : N) : bool :=
  (negb (c =? 34) && negb (c =? 92) && negb (c <? 32))%N.

(** A code unit with which no fence starts. *)
Definition starts_no_fence (c : N) : bool :=
  (negb (c =? BACKTICK) && negb (c =? LF))%N.

(** Pieces of text, each followed by an opening ([true]) or a closing
    ([false]) fence. *)
Fixpoint weave (pieces : list (jsstring * bool)) : jsstring :=
  match pieces with
  | [] => []
  | (piece, opening) :: rest =>
      piece ++ (if opening then opening_fence else closing_fence) ++ weave rest
  end.

(* ================================================================== *)
(** ** Tactics *)
(* ================================================================== *)

Ltac run_exec :=
  unfold ServerJs.summarize, ServerJs.try_block, ServerJs.catch_block,
    ServerJs.generateSummary, ServerJs.extractTextFromPdf,
    ServerCjs.summarize, ServerCjs.try_block, ServerCjs.catch_block,
    ServerCjs.generateSummary, ServerCjs.extractTextFromPdf,
    JSON_parse, try_catch, bind, ret, throw, respond, console_error, emit,
    call_axios_get, call_pdfParser, call_generateContent.

Ltac bool_to_prop :=
  repeat match goal with
    | H : (_ && _) = true |- _ => apply andb_true_iff in H; destruct H
    | H : (_ || _) = true |- _ => apply orb_true_iff in H; destruct H
    | H : (_ && _) = false |- _ => apply andb_false_iff in H; destruct H
    | H : (_ || _) = false |- _ => apply orb_false_iff in H; destruct H
    | H : (_ <=? _)%N = true |- _ => apply N.leb_le in H
    | H : (_ <=? _)%N = false |- _ => apply N.leb_gt in H
    | H : (_ <? _)%N = true |- _ => apply N.ltb_lt in H
    | H : (_ <? _)%N = false |- _ => apply N.ltb_ge in H
    | H : (_ =? _)%N = true |- _ => apply N.eqb_eq in H
    | H : (_ =? _)%N = false |- _ => apply N.eqb_neq in H
    end.

(* ================================================================== *)
(** ** The validation gate *)
(* ================================================================== *)

(** The gate, where the body was parsed: a request whose [url] or [title]
    is absent or is the empty string is answered with status 400 and the
    body [{"error": "Missing 'url' or 'title' in request body."}]; that
    response is the only event of the request, so neither the fetch nor the
    generation call (nor any other stage) is invoked. *)
Theorem missing_field_is_rejected :
  forall (rt : runtime) (body : list (jsstring * json)) (h : list event),
    get_property (js "url") body = None \/
    get_property (js "url") body = Some (JString []) \/
    get_property (js "title") body = None \/
    get_property (js "title") body = Some (JString []) ->
    ServerJs.summarize rt body h
    = (Returned tt,
       [Respond 400
          (JObject
             [(js "error",
               JString (js "Missing 'url' or 'title' in request body."))])])
    /\ calls (snd (ServerJs.summarize rt body h)) = [].
Proof.
  intros rt body h H.
  assert (G : negb (to_boolean (get_property (js "url") body))
              || negb (to_boolean (get_property (js "title") body)) = true).
  { destruct H as [H | [H | [H | H]]]; rewrite H; simpl;
      auto using orb_true_r. }
  unfold ServerJs.summarize. rewrite G. split; reflexivity.
Qed.

Lemma missing_field_is_rejected_witness :
  ServerJs.summarize
    (stub_runtime (Returned sample_pdf) (Returned (js "text"))
       (Returned fenced_output))
    [(js "url", JString sample_url); (js "title", JString [])] []
  = (Returned tt, [Respond 400 error_400]).
Proof.
  apply (missing_field_is_rejected
           (stub_runtime (Returned sample_pdf) (Returned (js "text"))
              (Returned fenced_output))
           [(js "url", JString sample_url); (js "title", JString [])] []).
  right. right. right. reflexivity.
Defined.

(** C1.  The claim does not hold of the code for a request without a parsed
    body.  Where [req.body] is [undefined] both [url] and [title] are
    absent, yet the handler sends no 400: the destructuring of [req.body],
    which stands before the gate and outside the [try], throws a TypeError,
    and the handler ends without any response of its own.  (No stage of the
    pipeline runs in that case either.)  The empty object, in which both
    are absent too, is answered 400 as the claim says. *)
Theorem absent_body_escapes_the_gate :
  forall (rt : runtime) (h : list event),
    ServerJs.handler rt None h
    = (Thrown {| message := type_error_message rt |}, [])
    /\ responses (snd (ServerJs.handler rt None h)) = []
    /\ calls (snd (ServerJs.handler rt None h)) = []
    /\ ServerJs.handler rt (Some []) h
       = (Returned tt,
          [Respond 400
             (JObject
                [(js "error",
                  JString (js "Missing 'url' or 'title' in request body."))])]).
Proof.
  intros rt h. repeat split.
Qed.

(* ================================================================== *)
(** ** The prompt *)
(* ================================================================== *)

Lemma slice_from_start :
  forall (s : jsstring) (n : Z),
    (0 <= n)%Z -> slice s 0 n = firstn (Z.to_nat n) s.
Proof.
  intros s n Hn. unfold slice.
  replace (0 <? 0)%Z with false by reflexivity.
  destruct (n <? 0)%Z eqn:E; [apply Z.ltb_lt in E; lia |].
  replace (Z.min 0 (Z.of_nat (length s))) with 0%Z by lia.
  change (Z.to_nat 0) with 0%nat. cbn [skipn].
  destruct (Z.le_gt_cases n (Z.of_nat (length s))) as [L | G].
  - f_equal. lia.
  - replace (Z.to_nat (Z.max (Z.min n (Z.of_nat (length s)) - 0) 0))
      with (length s) by lia.
    rewrite firstn_all. symmetry. apply firstn_all2. lia.
Qed.

Lemma firstn_min_length :
  forall (A : Type) (n : nat) (l : list A),
    firstn (Nat.min (length l) n) l = firstn n l.
Proof.
  intros A n l. destruct (Nat.le_gt_cases n (length l)) as [L | G].
  - rewrite Nat.min_r by lia. reflexivity.
  - rewrite Nat.min_l by lia. rewrite firstn_all.
    symmetry. apply firstn_all2. lia.
Qed.

(** C2.  The prompt is the fixed template followed by exactly the first
    min(length, 15000) code units of the text; what lies beyond offset
    15000 is discarded, and the prompt is never longer than the template
    plus 15000. *)
Theorem prompt_is_template_and_prefix :
  forall (text : jsstring),
    ServerJs.prompt text
    = ServerJs.template
      ++ firstn (Nat.min (length text) (Z.to_nat 15000)) text
    /\ ServerJs.prompt text = ServerJs.prompt (firstn (Z.to_nat 15000) text)
    /\ length (ServerJs.prompt text)
       = (length ServerJs.template + Nat.min (length text) (Z.to_nat 15000))%nat
    /\ (length (ServerJs.prompt text)
        <= length ServerJs.template + Z.to_nat 15000)%nat.
Proof.
  intros text. unfold ServerJs.prompt.
  rewrite !slice_from_start by lia.
  generalize (Z.to_nat 15000). intros n.
  rewrite firstn_min_length.
  repeat split.
  - f_equal. symmetry. rewrite firstn_firstn. f_equal. lia.
  - rewrite length_app, length_firstn. lia.
  - rewrite length_app, length_firstn. lia.
Qed.

(* ================================================================== *)
(** ** The pipeline, stage by stage *)
(* ================================================================== *)

Lemma summarize_valid :
  forall rt body h,
    to_boolean (get_property (js "url") body) = true ->
    to_boolean (get_property (js "title") body) = true ->
    ServerJs.summarize rt body h
    = try_catch (ServerJs.try_block rt (get_property (js "url") body)
                   (get_property (js "title") body))
        (ServerJs.catch_block) h.
Proof.
  intros rt body h Hu Ht. unfold ServerJs.summarize. rewrite Hu, Ht. reflexivity.
Qed.

(** What the [try] block does, by the answers of the collaborators. *)
Lemma try_block_trace :
  forall rt url title h,
    ServerJs.try_block rt url title h =
    match axios_get rt h url with
    | Thrown e => (Thrown e, [CallAxiosGet url])
    | Returned data =>
        match pdfParser rt (h ++ [CallAxiosGet url]) data with
        | Thrown e => (Thrown e, [CallAxiosGet url; CallPdfParser data])
        | Returned text =>
            let p := ServerJs.prompt text in
            match generateContent rt
                    (h ++ [CallAxiosGet url; CallPdfParser data]) p with
            | Thrown e =>
                (Thrown e, [CallAxiosGet url; CallPdfParser data;
                            CallGenerateContent p])
            | Returned raw =>
                match parse_json_text (ServerJs.jsonString raw) with
                | None =>
                    (Thrown {| message :=
                                 syntax_error_message rt (ServerJs.jsonString raw) |},
                     [CallAxiosGet url; CallPdfParser data;
                      CallGenerateContent p])
                | Some summary =>
                    (Returned tt,
                     [CallAxiosGet url; CallPdfParser data;
                      CallGenerateContent p; Respond 200 summary])
                end
            end
        end
    end.
Proof.
  intros rt url title h. run_exec.
  destruct (axios_get rt h url) as [data | e]; simpl; [| reflexivity].
  destruct (pdfParser rt (h ++ [CallAxiosGet url]) data) as [text | e]; simpl;
    [| reflexivity].
  destruct (generateContent rt (h ++ [CallAxiosGet url; CallPdfParser data])
              (ServerJs.prompt text)) as [raw | e]; simpl; [| reflexivity].
  destruct (parse_json_text (ServerJs.jsonString raw)); reflexivity.
Qed.

(** A failure of the [try] block is logged and answered with status 500. *)
Lemma caught_failure :
  forall rt url title h e evs,
    ServerJs.try_block rt url title h = (Thrown e, evs) ->
    try_catch (ServerJs.try_block rt url title) ServerJs.catch_block h
    = (Returned tt, evs ++ [log_js e; Respond 500 (error_500 e)]).
Proof.
  intros rt url title h e evs H. unfold try_catch. rewrite H. reflexivity.
Qed.

Lemma responses_app :
  forall a b, responses (a ++ b) = responses a ++ responses b.
Proof.
  induction a as [| ev a IH]; intros b; simpl; [reflexivity |].
  destruct ev; simpl; rewrite IH; reflexivity.
Qed.

(** The [try] block responds only as its last step, on success. *)
Lemma try_block_thrown_no_response :
  forall rt url title h e evs,
    ServerJs.try_block rt url title h = (Thrown e, evs) ->
    responses evs = [] /\ calls evs = evs.
Proof.
  intros rt url title h e evs H. rewrite try_block_trace in H.
  destruct (axios_get rt h url) as [data | e1];
    [| inversion H; subst; split; reflexivity].
  destruct (pdfParser rt (h ++ [CallAxiosGet url]) data) as [text | e1];
    [| inversion H; subst; split; reflexivity].
  cbv zeta in H.
  destruct (generateContent rt _ _) as [raw | e1];
    [| inversion H; subst; split; reflexivity].
  destruct (parse_json_text _); inversion H; subst; split; reflexivity.
Qed.

(* ================================================================== *)
(** ** Error classification *)
(* ================================================================== *)

Lemma includes_app_r :
  forall a b p, includes b p = true -> includes (a ++ b) p = true.
Proof.
  induction a as [| c a IH]; intros b p H; simpl; [exact H |].
  rewrite (IH b p H). apply orb_true_r.
Qed.

Lemma stub_message_mentions_JSON :
  forall s, includes (stub_syntax_error_message s) (js "JSON") = true.
Proof.
  intros s. unfold stub_syntax_error_message.
  rewrite !app_assoc. apply includes_app_r. reflexivity.
Qed.

Lemma not_json_is_rejected :
  parse_json_text (ServerJs.jsonString (js "not json")) = None.
Proof. vm_compute. reflexivity. Qed.

(** C3.  Whatever the [try] block throws, the handler answers with status
    500, the error text "Failed to process document or generate summary."
    and a details text chosen by the message of the error: "AI structure
    error or malformed response." when the message contains "JSON",
    "External PDF access failure." otherwise.  In particular, on an engine
    whose SyntaxError messages mention JSON (as those of V8 do), a model
    output that is not valid JSON, such as "not json", gets the first of the
    two. *)
Theorem failure_is_classified_by_message :
  forall (rt : runtime) (body : list (jsstring * json)) (h : list event),
    let url := get_property (js "url") body in
    let title := get_property (js "title") body in
    to_boolean url = true ->
    to_boolean title = true ->
    (forall e evs,
        ServerJs.try_block rt url title h = (Thrown e, evs) ->
        responses (snd (ServerJs.summarize rt body h))
        = [(500%Z,
            JObject
              [(js "error",
                JString (js "Failed to process document or generate summary."));
               (js "details",
                JString (if includes (message e) (js "JSON")
                         then js "AI structure error or malformed response."
                         else js "External PDF access failure."))])])
    /\ ((forall s, includes (syntax_error_message rt s) (js "JSON") = true) ->
        forall data text raw,
          axios_get rt h url = Returned data ->
          pdfParser rt (h ++ [CallAxiosGet url]) data = Returned text ->
          generateContent rt (h ++ [CallAxiosGet url; CallPdfParser data])
            (ServerJs.prompt text) = Returned raw ->
          parse_json_text (ServerJs.jsonString raw) = None ->
          responses (snd (ServerJs.summarize rt body h))
          = [(500%Z,
              JObject
                [(js "error",
                  JString (js "Failed to process document or generate summary."));
                 (js "details",
                  JString (js "AI structure error or malformed response."))])])
    /\ parse_json_text (ServerJs.jsonString (js "not json")) = None.
Proof.
  intros rt body h url title Hu Ht.
  assert (A : forall e evs,
             ServerJs.try_block rt url title h = (Thrown e, evs) ->
             responses (snd (ServerJs.summarize rt body h))
             = [(500%Z, error_500 e)]).
  { intros e evs H.
    rewrite (summarize_valid rt body h Hu Ht).
    fold url title. rewrite (caught_failure _ _ _ _ _ _ H). simpl.
    rewrite responses_app.
    destruct (try_block_thrown_no_response _ _ _ _ _ _ H) as [R _].
    rewrite R. reflexivity. }
  split; [| split].
  - intros e evs H. rewrite (A e evs H). reflexivity.
  - intros Hmsg data text raw Hf Hx Hg Hp.
    assert (T := try_block_trace rt url title h).
    rewrite Hf, Hx in T. cbv zeta in T. rewrite Hg, Hp in T.
    rewrite (A _ _ T). unfold error_500. cbn [message]. rewrite Hmsg.
    reflexivity.
  - exact not_json_is_rejected.
Qed.

Lemma failure_is_classified_by_message_witness :
  responses
    (snd (ServerJs.summarize
            (stub_runtime (Returned sample_pdf) (Returned (js "text"))
               (Returned (js "not json")))
            (sample_body sample_url (js "Notice")) []))
  = [(500%Z,
      JObject
        [(js "error",
          JString (js "Failed to process document or generate summary."));
         (js "details",
          JString (js "AI structure error or malformed response."))])].
Proof.
  refine (proj1 (proj2
    (failure_is_classified_by_message
       (stub_runtime (Returned sample_pdf) (Returned (js "text"))
          (Returned (js "not json")))
       (sample_body sample_url (js "Notice")) [] _ _))
    _ sample_pdf (js "text") (js "not json") _ _ _ _).
  - reflexivity.
  - reflexivity.
  - exact stub_message_mentions_JSON.
  - reflexivity.
  - reflexivity.
  - reflexivity.
  - vm_compute. reflexivity.
Defined.

(** C4, as the code has it.  A failed fetch whose error message does not
    contain "JSON" is answered with status 500 and the details "External
    PDF access failure.", which is not the text used for generation
    failures; no later stage runs. *)
Theorem fetch_failure_without_JSON_in_message :
  forall (rt : runtime) (body : list (jsstring * json)) (h : list event)
         (e : js_error),
    let url := get_property (js "url") body in
    to_boolean url = true ->
    to_boolean (get_property (js "title") body) = true ->
    axios_get rt h url = Thrown e ->
    includes (message e) (js "JSON") = false ->
    ServerJs.summarize rt body h
    = (Returned tt,
       [CallAxiosGet url; log_js e;
        Respond 500
          (JObject
             [(js "error",
               JString (js "Failed to process document or generate summary."));
              (js "details", JString (js "External PDF access failure."))])])
    /\ js "External PDF access failure."
       <> js "AI structure error or malformed response.".
Proof.
  intros rt body h e url Hu Ht Hf Hm. split; [| discriminate].
  rewrite (summarize_valid rt body h Hu Ht). fold url.
  assert (T := try_block_trace rt url (get_property (js "title") body) h).
  rewrite Hf in T. rewrite (caught_failure _ _ _ _ _ _ T).
  unfold error_500. rewrite Hm. reflexivity.
Qed.

Lemma fetch_failure_without_JSON_in_message_witness :
  responses
    (snd (ServerJs.summarize
            (stub_runtime
               (Thrown {| message := js "connect ECONNREFUSED 127.0.0.1:80" |})
               (Returned (js "text")) (Returned fenced_output))
            (sample_body (js "http://localhost/a.pdf") (js "Notice")) []))
  = [(500%Z,
      JObject
        [(js "error",
          JString (js "Failed to process document or generate summary."));
         (js "details", JString (js "External PDF access failure."))])].
Proof.
  rewrite (proj1 (fetch_failure_without_JSON_in_message
    (stub_runtime
       (Thrown {| message := js "connect ECONNREFUSED 127.0.0.1:80" |})
       (Returned (js "text")) (Returned fenced_output))
    (sample_body (js "http://localhost/a.pdf") (js "Notice")) []
    {| message := js "connect ECONNREFUSED 127.0.0.1:80" |}
    eq_refl eq_refl eq_refl eq_refl)).
  reflexivity.
Defined.

(** C4 as stated does not hold: a fetch that fails with a message that
    happens to contain "JSON" (here a certificate whose alternative name
    does) is reported with the details of a generation failure. *)
Lemma fetch_failure_reported_as_generation_failure :
  ~ (forall (rt : runtime) (body : list (jsstring * json)) (h : list event)
            (e : js_error),
        to_boolean (get_property (js "url") body) = true ->
        to_boolean (get_property (js "title") body) = true ->
        axios_get rt h (get_property (js "url") body) = Thrown e ->
        responses (snd (ServerJs.summarize rt body h))
        = [(500%Z,
            JObject
              [(js "error",
                JString (js "Failed to process document or generate summary."));
               (js "details", JString (js "External PDF access failure."))])]).
Proof.
  intros H.
  specialize (H
    (stub_runtime
       (Thrown {| message := js "Hostname/IP does not match certificate's altnames: Host: files.example.org. is not in the cert's altnames: DNS:JSON.example.net" |})
       (Returned (js "text")) (Returned fenced_output))
    (sample_body (js "https://files.example.org/a.pdf") (js "Notice")) []
    {| message := js "Hostname/IP does not match certificate's altnames: Host: files.example.org. is not in the cert's altnames: DNS:JSON.example.net" |}
    eq_refl eq_refl eq_refl).
  vm_compute in H. discriminate H.
Qed.

(* ================================================================== *)
(** ** Sequencing *)
(* ================================================================== *)

Lemma summarize_trace :
  forall rt body h,
    to_boolean (get_property (js "url") body) = true ->
    to_boolean (get_property (js "title") body) = true ->
    ServerJs.summarize rt body h
    = (Returned tt, expected_events rt (get_property (js "url") body) h).
Proof.
  intros rt body h Hu Ht. rewrite (summarize_valid rt body h Hu Ht).
  unfold try_catch, expected_events. rewrite try_block_trace.
  destruct (axios_get rt h _) as [data | e]; [| reflexivity].
  destruct (pdfParser rt _ data) as [text | e]; [| reflexivity].
  cbv zeta.
  destruct (generateContent rt _ _) as [raw | e]; [| reflexivity].
  destruct (parse_json_text _); reflexivity.
Qed.

Lemma summarize_invalid :
  forall rt body h,
    negb (to_boolean (get_property (js "url") body))
    || negb (to_boolean (get_property (js "title") body)) = true ->
    ServerJs.summarize rt body h = (Returned tt, [Respond 400 error_400]).
Proof.
  intros rt body h H. unfold ServerJs.summarize. rewrite H. reflexivity.
Qed.

Lemma validated_or_not :
  forall body,
    (to_boolean (get_property (js "url") body) = true /\
     to_boolean (get_property (js "title") body) = true)
    \/ negb (to_boolean (get_property (js "url") body))
       || negb (to_boolean (get_property (js "title") body)) = true.
Proof.
  intros body.
  destruct (to_boolean (get_property (js "url") body));
    destruct (to_boolean (get_property (js "title") body)); auto.
Qed.

(** Every request ends in exactly one response, sent last, with status
    200, 400 or 500; the handler itself never throws. *)
Lemma one_response :
  forall rt body h,
    exists evs status b,
      ServerJs.summarize rt body h = (Returned tt, evs ++ [Respond status b])
      /\ responses evs = []
      /\ (status = 200 \/ status = 400 \/ status = 500)%Z.
Proof.
  intros rt body h.
  destruct (validated_or_not body) as [[Hu Ht] | Hbad].
  - rewrite (summarize_trace rt body h Hu Ht). unfold expected_events.
    destruct (axios_get rt h _) as [data | e].
    2:{ eexists [_; _], _, _. simpl. repeat split; auto. }
    destruct (pdfParser rt _ data) as [text | e].
    2:{ eexists [_; _; _], _, _. simpl. repeat split; auto. }
    cbv zeta.
    destruct (generateContent rt _ _) as [raw | e].
    2:{ eexists [_; _; _; _], _, _. simpl. repeat split; auto. }
    destruct (parse_json_text _).
    + eexists [_; _; _], _, _. simpl. repeat split; auto.
    + eexists [_; _; _; _], _, _. simpl. repeat split; auto.
  - rewrite (summarize_invalid rt body h Hbad).
    exists [], 400%Z, error_400. simpl. repeat split; auto.
Qed.

(** C6.  The stages of a validated request run one after the other, each
    at most once, and the first failure ends the pipeline: the events are
    the fetch, then the extraction, then the generation call, cut short at
    the first stage that throws and followed by the log entry and the 500
    response, or completed by the 200 response.  When the fetch or the
    extraction fails there is no generation call.  Every request, validated
    or not, ends in exactly one response, sent last, with status 200, 400
    or 500, and a failed request carries the error object and nothing of
    the summary. *)
Theorem stages_are_sequential :
  forall (rt : runtime) (body : list (jsstring * json)) (h : list event),
    let url := get_property (js "url") body in
    let title := get_property (js "title") body in
    (exists evs status b,
        ServerJs.summarize rt body h = (Returned tt, evs ++ [Respond status b])
        /\ responses evs = []
        /\ (status = 200 \/ status = 400 \/ status = 500)%Z)
    /\ (to_boolean url = true ->
        to_boolean title = true ->
        snd (ServerJs.summarize rt body h)
        = match axios_get rt h url with
          | Thrown e => [CallAxiosGet url; log_js e; Respond 500 (error_500 e)]
          | Returned data =>
              match pdfParser rt (h ++ [CallAxiosGet url]) data with
              | Thrown e =>
                  [CallAxiosGet url; CallPdfParser data;
                   log_js e; Respond 500 (error_500 e)]
              | Returned text =>
                  match generateContent rt
                          (h ++ [CallAxiosGet url; CallPdfParser data])
                          (ServerJs.prompt text) with
                  | Thrown e =>
                      [CallAxiosGet url; CallPdfParser data;
                       CallGenerateContent (ServerJs.prompt text);
                       log_js e; Respond 500 (error_500 e)]
                  | Returned raw =>
                      match parse_json_text (ServerJs.jsonString raw) with
                      | None =>
                          let e := {| message :=
                                        syntax_error_message rt
                                          (ServerJs.jsonString raw) |} in
                          [CallAxiosGet url; CallPdfParser data;
                           CallGenerateContent (ServerJs.prompt text);
                           log_js e; Respond 500 (error_500 e)]
                      | Some summary =>
                          [CallAxiosGet url; CallPdfParser data;
                           CallGenerateContent (ServerJs.prompt text);
                           Respond 200 summary]
                      end
                  end
              end
          end)
    /\ (to_boolean url = true ->
        to_boolean title = true ->
        (exists e, axios_get rt h url = Thrown e)
        \/ (exists data e,
               axios_get rt h url = Returned data
               /\ pdfParser rt (h ++ [CallAxiosGet url]) data = Thrown e) ->
        existsb is_generation_call (snd (ServerJs.summarize rt body h)) = false
        /\ exists e, responses (snd (ServerJs.summarize rt body h))
                     = [(500%Z, error_500 e)]).
Proof.
  intros rt body h url title. split; [apply one_response |]. split.
  - intros Hu Ht. rewrite (summarize_trace rt body h Hu Ht). reflexivity.
  - intros Hu Ht Hfail. rewrite (summarize_trace rt body h Hu Ht).
    unfold expected_events. fold url.
    destruct Hfail as [[e He] | [data [e [Hd He]]]].
    + rewrite He. simpl. eauto.
    + rewrite Hd, He. simpl. eauto.
Qed.

Lemma stages_are_sequential_witness :
  snd (ServerJs.summarize
         (stub_runtime (Returned sample_pdf)
            (Thrown {| message := js "Invalid PDF structure" |})
            (Returned fenced_output))
         (sample_body sample_url (js "Notice")) [])
  = [CallAxiosGet (Some (JString sample_url)); CallPdfParser sample_pdf;
     log_js {| message := js "Invalid PDF structure" |};
     Respond 500 (error_500 {| message := js "Invalid PDF structure" |})].
Proof.
  exact (proj1 (proj2
    (stages_are_sequential
       (stub_runtime (Returned sample_pdf)
          (Thrown {| message := js "Invalid PDF structure" |})
          (Returned fenced_output))
       (sample_body sample_url (js "Notice")) [])) eq_refl eq_refl).
Defined.

(* ================================================================== *)
(** ** The title *)
(* ================================================================== *)

(** C7.  The title never reaches the prompt: for every text and any two
    titles the summary generation is the same computation and its one call
    to the generator carries the prompt built from the text alone; the
    [try] block is the same for any two titles, and two requests for the
    same url whose titles both pass validation are handled alike. *)
Theorem title_does_not_reach_prompt :
  forall (rt : runtime) (text : jsstring) (t1 t2 : jsvalue) (h : list event),
    ServerJs.generateSummary rt text t1 h = ServerJs.generateSummary rt text t2 h
    /\ calls (snd (ServerJs.generateSummary rt text t1 h))
       = [CallGenerateContent (ServerJs.prompt text)]
    /\ (forall url,
           ServerJs.try_block rt url t1 h = ServerJs.try_block rt url t2 h)
    /\ (forall body1 body2,
           get_property (js "url") body1 = get_property (js "url") body2 ->
           to_boolean (get_property (js "title") body1) = true ->
           to_boolean (get_property (js "title") body2) = true ->
           ServerJs.summarize rt body1 h = ServerJs.summarize rt body2 h).
Proof.
  intros rt text t1 t2 h. split; [reflexivity |]. split; [| split].
  - run_exec.
    destruct (generateContent rt h (ServerJs.prompt text)) as [raw | e];
      [| reflexivity].
    destruct (parse_json_text (ServerJs.jsonString raw)); reflexivity.
  - intros url. reflexivity.
  - intros body1 body2 Hurl H1 H2.
    destruct (to_boolean (get_property (js "url") body1)) eqn:U.
    + rewrite (summarize_trace rt body1 h U H1).
      rewrite Hurl in U. rewrite (summarize_trace rt body2 h U H2).
      rewrite Hurl. reflexivity.
    + rewrite (summarize_invalid rt body1 h) by (rewrite U; reflexivity).
      rewrite Hurl in U.
      rewrite (summarize_invalid rt body2 h) by (rewrite U; reflexivity).
      reflexivity.
Qed.

Lemma title_does_not_reach_prompt_witness :
  ServerJs.summarize
    (stub_runtime (Returned sample_pdf) (Returned (js "text"))
       (Returned fenced_output))
    (sample_body sample_url (js "Notice")) []
  = ServerJs.summarize
      (stub_runtime (Returned sample_pdf) (Returned (js "text"))
         (Returned fenced_output))
      (sample_body sample_url (js "Another title")) [].
Proof.
  exact (proj2 (proj2 (proj2
    (title_does_not_reach_prompt
       (stub_runtime (Returned sample_pdf) (Returned (js "text"))
          (Returned fenced_output))
       (js "text") None None [])))
    (sample_body sample_url (js "Notice"))
    (sample_body sample_url (js "Another title"))
    eq_refl eq_refl eq_refl).
Defined.

(* ================================================================== *)
(** ** Determinism and isolation of requests *)
(* ================================================================== *)

Lemma expected_events_stubbed :
  forall rt, stubbed rt ->
    forall url h1 h2, expected_events rt url h1 = expected_events rt url h2.
Proof.
  intros rt [Ha [Hp Hg]] url h1 h2. unfold expected_events.
  rewrite (Ha h1 h2 url).
  destruct (axios_get rt h2 url) as [data | e]; [| reflexivity].
  rewrite (Hp (h1 ++ [CallAxiosGet url]) (h2 ++ [CallAxiosGet url]) data).
  destruct (pdfParser rt _ data) as [text | e]; [| reflexivity].
  cbv zeta.
  rewrite (Hg (h1 ++ [CallAxiosGet url; CallPdfParser data])
              (h2 ++ [CallAxiosGet url; CallPdfParser data])).
  reflexivity.
Qed.

Lemma summarize_stubbed :
  forall rt, stubbed rt ->
    forall body h1 h2, ServerJs.summarize rt body h1 = ServerJs.summarize rt body h2.
Proof.
  intros rt Hs body h1 h2.
  destruct (validated_or_not body) as [[Hu Ht] | Hbad].
  - rewrite !(summarize_trace rt body _ Hu Ht).
    f_equal. apply expected_events_stubbed. exact Hs.
  - rewrite !(summarize_invalid rt body _ Hbad). reflexivity.
Qed.

Lemma summarize_returns :
  forall rt body h, fst (ServerJs.summarize rt body h) = Returned tt.
Proof.
  intros rt body h.
  destruct (one_response rt body h) as [evs [status [b [E _]]]].
  rewrite E. reflexivity.
Qed.

Lemma stub_runtime_is_stubbed :
  forall f x g, stubbed (stub_runtime f x g).
Proof. intros f x g. repeat split. Qed.

(** C8.  With stubbed collaborators the handler is a function of the
    request alone: whatever happened before (the history [h1] or [h2]), the
    same body yields the same events, and so the same response, body
    included.  Requests served in a row each behave as they would on a
    fresh process: nothing one of them does is seen by another. *)
Theorem pipeline_is_deterministic :
  forall (rt : runtime),
    stubbed rt ->
    (forall body h1 h2,
        ServerJs.summarize rt body h1 = ServerJs.summarize rt body h2
        /\ responses (snd (ServerJs.summarize rt body h1))
           = responses (snd (ServerJs.summarize rt body h2)))
    /\ (forall requests h,
           ServerJs.serve rt requests h
           = (Returned tt,
              concat (map (fun body => snd (ServerJs.summarize rt body []))
                        requests))).
Proof.
  intros rt Hs. split.
  - intros body h1 h2. rewrite (summarize_stubbed rt Hs body h1 h2).
    split; reflexivity.
  - induction requests as [| body rest IH]; intros h; [reflexivity |].
    cbn [ServerJs.serve map concat]. unfold bind.
    rewrite (summarize_stubbed rt Hs body h []).
    pose proof (summarize_returns rt body []) as R.
    destruct (ServerJs.summarize rt body []) as [r evs]. simpl in R. subst r.
    rewrite IH. reflexivity.
Qed.

Lemma pipeline_is_deterministic_witness :
  ServerJs.serve
    (stub_runtime (Returned sample_pdf) (Returned (js "text"))
       (Returned fenced_output))
    [sample_body sample_url (js "Notice"); sample_body sample_url (js "Notice")]
    []
  = (Returned tt,
     [CallAxiosGet (Some (JString sample_url)); CallPdfParser sample_pdf;
      CallGenerateContent (ServerJs.prompt (js "text"));
      Respond 200 sample_summary;
      CallAxiosGet (Some (JString sample_url)); CallPdfParser sample_pdf;
      CallGenerateContent (ServerJs.prompt (js "text"));
      Respond 200 sample_summary]).
Proof.
  rewrite (proj2 (pipeline_is_deterministic
    (stub_runtime (Returned sample_pdf) (Returned (js "text"))
       (Returned fenced_output))
    (stub_runtime_is_stubbed _ _ _))).
  vm_compute. reflexivity.
Defined.

(* ================================================================== *)
(** ** The two server files *)
(* ================================================================== *)

(** C10.  The handlers of [server.js] and [server.cjs] answer alike: for
    every request body, every history and every behaviour of the three
    collaborators they end in the same outcome, send the same responses
    (status and body), make the same calls, and differ at most in what they
    pass to [console.error]. *)
Theorem server_js_and_cjs_agree :
  forall (rt : runtime) (body : list (jsstring * json)) (h : list event),
    fst (ServerJs.summarize rt body h) = fst (ServerCjs.summarize rt body h)
    /\ responses (snd (ServerJs.summarize rt body h))
       = responses (snd (ServerCjs.summarize rt body h))
    /\ calls (snd (ServerJs.summarize rt body h))
       = calls (snd (ServerCjs.summarize rt body h))
    /\ filter (fun ev => negb (is_log ev)) (snd (ServerJs.summarize rt body h))
       = filter (fun ev => negb (is_log ev))
           (snd (ServerCjs.summarize rt body h)).
Proof.
  intros rt body h.
  unfold ServerJs.summarize, ServerCjs.summarize.
  destruct (negb (to_boolean (get_property (js "url") body))
            || negb (to_boolean (get_property (js "title") body)));
    [repeat split |].
  run_exec.
  destruct (axios_get rt h _) as [data | e]; simpl; [| repeat split].
  destruct (pdfParser rt _ data) as [text | e]; simpl; [| repeat split].
  destruct (generateContent rt _ _) as [raw | e]; simpl; [| repeat split].
  unfold ServerCjs.jsonString, ServerJs.jsonString.
  destruct (parse_json_text _); simpl; repeat split.
Qed.

(* ================================================================== *)
(** ** Facts about the scanner *)
(* ================================================================== *)

Lemma is_whitespace_range :
  forall c, is_whitespace c = true ->
    (9 <= c <= 13 \/ c = 32 \/ 160 <= c)%N.
Proof.
  intros c H. unfold is_whitespace in H. bool_to_prop; lia.
Qed.

Lemma digit_value_range :
  forall c d, digit_value c = Some d -> (48 <= c <= 57)%N.
Proof.
  intros c d H. unfold digit_value in H.
  destruct ((48 <=? c) && (c <=? 57))%N eqn:E; [| discriminate].
  bool_to_prop. lia.
Qed.

Lemma hex_value_range :
  forall c d, hex_value c = Some d ->
    (48 <= c <= 57 \/ 65 <= c <= 70 \/ 97 <= c <= 102)%N.
Proof.
  intros c d H. unfold hex_value in H.
  destruct ((48 <=? c) && (c <=? 57))%N eqn:E1; [bool_to_prop; lia |].
  destruct ((65 <=? c) && (c <=? 70))%N eqn:E2; [bool_to_prop; lia |].
  destruct ((97 <=? c) && (c <=? 102))%N eqn:E3; [bool_to_prop; lia |].
  discriminate.
Qed.

(** A number is continued only by a digit, a sign, a dot or an exponent
    mark. *)
Lemma num_step_range :
  forall ns lit c r, num_step ns lit c = Some r ->
    (43 <= c <= 57 \/ c = 69 \/ c = 101)%N.
Proof.
  intros ns lit c r H.
  destruct ns; unfold num_step, is_exp_mark in H;
    destruct (digit_value c) eqn:D;
    try (apply digit_value_range in D; lia);
    repeat match type of H with
      | context [if ?b then _ else _] =>
          let E := fresh "E" in destruct b eqn:E; bool_to_prop; try lia
      end;
    try discriminate.
Qed.

(** The letters of [true], [false] and [null] are lower-case letters. *)
Lemma literal_text_range :
  forall w n x, nth_error (literal_text w) n = Some x -> (97 <= x <= 117)%N.
Proof.
  intros w n x H.
  destruct w; do 6 (destruct n as [| n]; cbn in H;
                     [try (inversion H; subst; lia); try discriminate |]);
    destruct n; discriminate.
Qed.

(** Between tokens, white space is skipped and yields nothing. *)
Lemma lex_start_whitespace :
  forall c st out,
    is_whitespace c = true -> lex_start c = Some (st, out) ->
    st = LOut /\ out = [].
Proof.
  intros c st out Hws H. apply is_whitespace_range in Hws.
  unfold lex_start in H.
  destruct (is_json_whitespace c); [inversion H; auto |].
  repeat match type of H with
    | context [(c =? ?k)%N] => destruct (N.eqb_spec c k); [lia |]
    end.
  destruct (digit_value c) eqn:D; [| discriminate].
  apply digit_value_range in D. lia.
Qed.

Lemma lex_start_other :
  forall c, (c = 96 \/ 128 <= c)%N -> lex_start c = None.
Proof.
  intros c Hc. unfold lex_start.
  destruct (is_json_whitespace c) eqn:W.
  { unfold is_json_whitespace in W. bool_to_prop; lia. }
  repeat match goal with
    | |- context [(c =? ?k)%N] => destruct (N.eqb_spec c k); [lia |]
    end.
  destruct (digit_value c) eqn:D; [| reflexivity].
  apply digit_value_range in D. lia.
Qed.

(** Which states may stand at the end of the input. *)
Lemma lex_finish_some :
  forall st ts, lex_finish st = Some ts ->
    (st = LOut /\ ts = [])
    \/ exists ns lit, st = LNum ns lit /\ num_final ns = true
                      /\ ts = [TNumber lit].
Proof.
  intros st ts H. destruct st; simpl in H; try discriminate.
  - inversion H. auto.
  - destruct (num_final ns) eqn:F; [| discriminate]. inversion H.
    right. eauto.
Qed.

(** A back-tick is accepted only inside a string literal, where it is an
    ordinary character. *)
Lemma lex_step_backtick :
  forall st st' out,
    lex_step st 96 = Some (st', out) ->
    exists acc, st = LStr acc /\ st' = LStr (acc ++ [96%N]) /\ out = [].
Proof.
  intros st st' out H. destruct st; cbn [lex_step] in H.
  - rewrite lex_start_other in H by lia. discriminate.
  - simpl in H. inversion H. eauto.
  - simpl in H. discriminate.
  - simpl in H. discriminate.
  - destruct (num_step ns lit 96) as [[ns' lit'] |] eqn:S.
    + apply num_step_range in S. lia.
    + rewrite lex_start_other in H by lia.
      destruct (num_final ns); discriminate.
  - destruct (nth_error (literal_text w) matched) as [x |] eqn:E;
      [| discriminate].
    apply literal_text_range in E.
    destruct (N.eqb_spec 96 x); [lia | discriminate].
Qed.

(** A line feed is accepted only between tokens (where it also ends a
    number), never inside a string literal. *)
Lemma lex_step_line_feed :
  forall st st' out,
    lex_step st 10 = Some (st', out) -> st' = LOut.
Proof.
  intros st st' out H. destruct st; cbn [lex_step] in H.
  - simpl in H. inversion H. reflexivity.
  - simpl in H. discriminate.
  - simpl in H. discriminate.
  - simpl in H. discriminate.
  - destruct (num_step ns lit 10) as [[ns' lit'] |] eqn:S.
    + apply num_step_range in S. lia.
    + destruct (num_final ns); [| discriminate].
      simpl in H. inversion H. reflexivity.
  - destruct (nth_error (literal_text w) matched) as [x |] eqn:E;
      [| discriminate].
    apply literal_text_range in E.
    destruct (N.eqb_spec 10 x); [lia | discriminate].
Qed.

Lemma lex_from_cons :
  forall st c s ts,
    lex_from st (c :: s) = Some ts ->
    exists st' out ts',
      lex_step st c = Some (st', out) /\ lex_from st' s = Some ts'
      /\ ts = out ++ ts'.
Proof.
  intros st c s ts H. simpl in H.
  destruct (lex_step st c) as [[st' out] |] eqn:E1; [| discriminate].
  destruct (lex_from st' s) as [ts' |] eqn:E2; [| discriminate].
  inversion H. exists st', out, ts'. auto.
Qed.

Lemma lex_from_app :
  forall a st b ts,
    lex_from st (a ++ b) = Some ts ->
    exists st' ts', lex_from st' b = Some ts'.
Proof.
  induction a as [| c a IH]; intros st b ts H; simpl app in H; [eauto |].
  apply lex_from_cons in H. destruct H as [st' [out [ts' [_ [H _]]]]].
  exact (IH _ _ _ H).
Qed.

(** Inside a string literal, plain characters followed by a line feed are
    never accepted: either the input ends inside the literal or the line
    feed is met inside it. *)
Lemma string_interrupted_by_line_feed :
  forall p, forallb is_plain_string_char p = true ->
    forall s x acc,
      starts_with (p ++ [LF]) (s ++ x) = true ->
      lex_from (LStr acc) s = None.
Proof.
  induction p as [| a p IH]; intros Hp s x acc H.
  - destruct s as [| c s]; [reflexivity |].
    cbn [starts_with app] in H.
    apply andb_true_iff in H. destruct H as [Hc _].
    apply N.eqb_eq in Hc. subst c. reflexivity.
  - destruct s as [| c s]; [reflexivity |].
    cbn [starts_with app forallb] in H, Hp.
    apply andb_true_iff in H. destruct H as [Hc Hs].
    apply andb_true_iff in Hp. destruct Hp as [Ha Hp].
    apply N.eqb_eq in Hc. subst c.
    unfold is_plain_string_char in Ha. cbn [lex_from lex_step].
    destruct (a =? 34)%N; [discriminate |].
    destruct (a =? 92)%N; [discriminate |].
    destruct (a <? 32)%N; [discriminate |].
    rewrite (IH Hp s x (acc ++ [a]) Hs). reflexivity.
Qed.

(** Where the scanner accepts the text, no fence starts: the opening fence
    would need a line feed inside a string literal, the closing fence a
    back-tick outside one. *)
Lemma no_fence_at_head :
  forall st c s x ts,
    lex_from st (c :: s) = Some ts ->
    starts_with [BACKTICK] x = false ->
    first_match fence_alternatives (c :: s ++ x) = None.
Proof.
  intros st c s x ts H Hx.
  apply lex_from_cons in H. destruct H as [st' [out [ts' [Hstep [Hrest _]]]]].
  unfold fence_alternatives. cbn [first_match].
  destruct (starts_with opening_fence (c :: s ++ x)) eqn:O.
  { exfalso. change opening_fence
      with (BACKTICK :: js "``json" ++ [LF]) in O.
    cbn [starts_with] in O.
    apply andb_true_iff in O. destruct O as [Oc Os].
    apply N.eqb_eq in Oc. subst c.
    apply lex_step_backtick in Hstep.
    destruct Hstep as [acc [_ [E _]]]. subst st'.
    rewrite (string_interrupted_by_line_feed (js "``json") eq_refl s x _ Os)
      in Hrest.
    discriminate. }
  destruct (starts_with closing_fence (c :: s ++ x)) eqn:C; [| reflexivity].
  exfalso. change closing_fence with [LF; BACKTICK; BACKTICK; BACKTICK] in C.
  cbn [starts_with] in C.
  apply andb_true_iff in C. destruct C as [Cc Cs].
  apply N.eqb_eq in Cc. subst c.
  apply lex_step_line_feed in Hstep. subst st'.
  destruct s as [| c2 s].
  - cbn [app] in Cs. destruct x as [| y x]; [discriminate |].
    cbn [starts_with] in Hx, Cs.
    apply andb_true_iff in Cs. destruct Cs as [Cy _].
    rewrite Cy in Hx. discriminate.
  - cbn [starts_with app] in Cs.
    apply andb_true_iff in Cs. destruct Cs as [Cy _].
    apply N.eqb_eq in Cy. subst c2.
    apply lex_from_cons in Hrest.
    destruct Hrest as [st2 [out2 [ts2 [Hstep2 _]]]].
    apply lex_step_backtick in Hstep2.
    destruct Hstep2 as [acc [E _]]. discriminate.
Qed.

(** The fence removal leaves text that the scanner accepts as it is, also
    when more text follows that does not start with a back-tick. *)
Lemma delete_matches_lexed :
  forall s st ts x,
    lex_from st s = Some ts ->
    starts_with [BACKTICK] x = false ->
    delete_matches fence_alternatives 0 (s ++ x)
    = s ++ delete_matches fence_alternatives 0 x.
Proof.
  induction s as [| c s IH]; intros st ts x H Hx; [reflexivity |].
  pose proof (no_fence_at_head st c s x ts H Hx) as F.
  apply lex_from_cons in H. destruct H as [st' [out [ts' [_ [Hrest _]]]]].
  change ((c :: s) ++ x) with (c :: s ++ x).
  cbn [delete_matches]. rewrite F.
  rewrite (IH st' ts' x Hrest Hx). reflexivity.
Qed.

Lemma replace_lexed :
  forall s ts,
    lex s = Some ts -> replace_all_with_empty fence_alternatives s = s.
Proof.
  intros s ts H. unfold replace_all_with_empty.
  rewrite <- (app_nil_r s) at 1.
  rewrite (delete_matches_lexed s LOut ts [] H eq_refl). simpl.
  apply app_nil_r.
Qed.

Lemma replace_opening_fence :
  forall s,
    replace_all_with_empty fence_alternatives (opening_fence ++ s)
    = replace_all_with_empty fence_alternatives s.
Proof. reflexivity. Qed.

Lemma replace_closing_fence :
  forall s,
    replace_all_with_empty fence_alternatives (closing_fence ++ s)
    = replace_all_with_empty fence_alternatives s.
Proof. reflexivity. Qed.

Lemma replace_wrapped :
  forall s ts,
    lex s = Some ts ->
    replace_all_with_empty fence_alternatives
      (opening_fence ++ s ++ closing_fence) = s.
Proof.
  intros s ts H. rewrite replace_opening_fence. unfold replace_all_with_empty.
  rewrite (delete_matches_lexed s LOut ts closing_fence H eq_refl).
  change (delete_matches fence_alternatives 0 closing_fence) with (@nil N).
  apply app_nil_r.
Qed.

(** No text that the scanner accepts contains a fence. *)
Lemma lexed_has_no_fence :
  forall s ts,
    lex s = Some ts ->
    ~ occurs_in opening_fence s /\ ~ occurs_in closing_fence s.
Proof.
  intros s ts H.
  split; intros [pre [post E]]; subst s;
    apply lex_from_app in H; destruct H as [st' [ts' H]].
  - pose proof (no_fence_at_head st' BACKTICK
                  (js "``json" ++ [LF] ++ post) [] ts' H eq_refl) as F.
    rewrite app_nil_r in F. discriminate F.
  - pose proof (no_fence_at_head st' LF (js "```" ++ post) [] ts' H eq_refl) as F.
    rewrite app_nil_r in F. discriminate F.
Qed.

(* ================================================================== *)
(** ** Trimming *)
(* ================================================================== *)

Lemma trim_start_whitespace_app :
  forall w x, forallb is_whitespace w = true ->
    trim_start (w ++ x) = trim_start x.
Proof.
  induction w as [| c w IH]; intros x H; [reflexivity |].
  cbn [forallb] in H. apply andb_true_iff in H. destruct H as [Hc Hw].
  cbn [app trim_start]. rewrite Hc. exact (IH x Hw).
Qed.

Lemma trim_end_snoc :
  forall s c,
    trim_end (s ++ [c]) = if is_whitespace c then trim_end s else s ++ [c].
Proof.
  intros s c. unfold trim_end. rewrite rev_app_distr. cbn [rev app trim_start].
  destruct (is_whitespace c); [reflexivity |].
  cbn [rev]. rewrite rev_involutive. reflexivity.
Qed.

Lemma trim_end_whitespace_app :
  forall w x, forallb is_whitespace w = true ->
    trim_end (x ++ w) = trim_end x.
Proof.
  induction w as [| c w IH] using rev_ind; intros x H.
  - rewrite app_nil_r. reflexivity.
  - rewrite forallb_app in H. apply andb_true_iff in H. destruct H as [Hw Hc].
    cbn [forallb] in Hc. rewrite andb_true_r in Hc.
    rewrite app_assoc, trim_end_snoc, Hc. exact (IH x Hw).
Qed.

Lemma trim_start_app_nonempty :
  forall p w, trim_start p <> [] -> trim_start (p ++ w) = trim_start p ++ w.
Proof.
  induction p as [| c p IH]; intros w H; [contradiction H; reflexivity |].
  cbn [app trim_start] in *.
  destruct (is_whitespace c); [exact (IH w H) | reflexivity].
Qed.

(** White space around a text that the scanner accepts changes nothing:
    the scanner skips what [trim] removes. *)
Lemma lex_trim_start :
  forall s ts, lex s = Some ts -> lex (trim_start s) = Some ts.
Proof.
  unfold lex. induction s as [| c s IH]; intros ts H; [exact H |].
  cbn [trim_start]. destruct (is_whitespace c) eqn:W; [| exact H].
  apply IH. apply lex_from_cons in H.
  destruct H as [st' [out [ts' [Hstep [Hrest E]]]]].
  cbn [lex_step] in Hstep.
  destruct (lex_start_whitespace c st' out W Hstep) as [E1 E2].
  subst st' out ts. exact Hrest.
Qed.

Lemma lex_last_whitespace :
  forall st c ts,
    is_whitespace c = true ->
    lex_from st [c] = Some ts -> lex_finish st = Some ts.
Proof.
  intros st c ts W H. apply lex_from_cons in H.
  destruct H as [st' [out [fin [Hstep [Hfin E]]]]]. subst ts.
  cbn [lex_from] in Hfin. apply lex_finish_some in Hfin.
  pose proof (is_whitespace_range c W) as R.
  destruct st; cbn [lex_step] in Hstep.
  - destruct (lex_start_whitespace c st' out W Hstep) as [E1 E2].
    subst st' out.
    destruct Hfin as [[_ F] | [ns [lit [F _]]]]; [subst fin | discriminate].
    reflexivity.
  - destruct (N.eqb_spec c 34); [lia |].
    destruct (N.eqb_spec c 92); [lia |].
    destruct (c <? 32)%N; [discriminate |].
    inversion Hstep; subst.
    destruct Hfin as [[F _] | [ns [lit [F _]]]]; discriminate.
  - destruct (c =? 117)%N.
    + inversion Hstep; subst.
      destruct Hfin as [[F _] | [ns [lit [F _]]]]; discriminate.
    + destruct (escape_char c); [| discriminate].
      inversion Hstep; subst.
      destruct Hfin as [[F _] | [ns [lit [F _]]]]; discriminate.
  - destruct (hex_value c); [| discriminate].
    destruct (Nat.eqb (length hex) 3); inversion Hstep; subst;
      destruct Hfin as [[F _] | [ns [lit [F _]]]]; discriminate.
  - destruct (num_step ns lit c) as [[ns' lit'] |] eqn:S.
    + apply num_step_range in S. lia.
    + destruct (num_final ns) eqn:F; [| discriminate].
      destruct (lex_start c) as [[st2 out2] |] eqn:L; [| discriminate].
      destruct (lex_start_whitespace c st2 out2 W L) as [E1 E2].
      subst st2 out2. inversion Hstep; subst.
      destruct Hfin as [[_ F2] | [ns2 [lit2 [F2 _]]]];
        [subst fin | discriminate].
      cbn [lex_finish]. rewrite F. reflexivity.
  - destruct (nth_error (literal_text w) matched) as [x |] eqn:E;
      [| discriminate].
    apply literal_text_range in E.
    destruct (N.eqb_spec c x); [lia | discriminate].
Qed.

Lemma lex_snoc_whitespace :
  forall s st c ts,
    is_whitespace c = true ->
    lex_from st (s ++ [c]) = Some ts -> lex_from st s = Some ts.
Proof.
  induction s as [| a s IH]; intros st c ts W H.
  - exact (lex_last_whitespace st c ts W H).
  - change ((a :: s) ++ [c]) with (a :: s ++ [c]) in H.
    apply lex_from_cons in H.
    destruct H as [st' [out [ts' [Hstep [Hrest E]]]]]. subst ts.
    cbn [lex_from]. rewrite Hstep, (IH st' c ts' W Hrest). reflexivity.
Qed.

Lemma lex_trim_end :
  forall s ts, lex s = Some ts -> lex (trim_end s) = Some ts.
Proof.
  unfold lex. induction s as [| c s IH] using rev_ind; intros ts H; [exact H |].
  rewrite trim_end_snoc. destruct (is_whitespace c) eqn:W; [| exact H].
  apply IH. exact (lex_snoc_whitespace s LOut c ts W H).
Qed.

Lemma lex_trim :
  forall s ts, lex s = Some ts -> lex (trim s) = Some ts.
Proof.
  intros s ts H. unfold trim. apply lex_trim_end, lex_trim_start, H.
Qed.

Lemma parse_json_text_lexed :
  forall s v, parse_json_text s = Some v ->
    exists ts, lex s = Some ts /\ ts <> [].
Proof.
  intros s v H. unfold parse_json_text in H.
  destruct (lex s) as [ts |]; [| discriminate].
  exists ts. split; [reflexivity |].
  intros E. subst ts. discriminate H.
Qed.

Lemma parse_json_text_trim :
  forall s v, parse_json_text s = Some v -> parse_json_text (trim s) = Some v.
Proof.
  intros s v H. destruct (parse_json_text_lexed s v H) as [ts [L _]].
  unfold parse_json_text in *. rewrite (lex_trim s ts L).
  rewrite L in H. exact H.
Qed.

(** A text that denotes a value is not made of white space alone. *)
Lemma parsed_text_has_content :
  forall s v, parse_json_text s = Some v -> trim_start s <> [].
Proof.
  intros s v H E. destruct (parse_json_text_lexed s v H) as [ts [L N]].
  apply lex_trim_start in L. rewrite E in L. inversion L. congruence.
Qed.

(** The cleaned text of a wrapped or bare payload is the trimmed
    payload. *)
Lemma jsonString_wrapped :
  forall w1 w2 p ts,
    forallb is_whitespace w1 = true ->
    forallb is_whitespace w2 = true ->
    lex p = Some ts ->
    ServerJs.jsonString (w1 ++ opening_fence ++ p ++ closing_fence ++ w2)
    = trim p.
Proof.
  intros w1 w2 p ts H1 H2 L. unfold ServerJs.jsonString.
  assert (T : trim (w1 ++ opening_fence ++ p ++ closing_fence ++ w2)
              = opening_fence ++ p ++ closing_fence).
  { unfold trim. rewrite (trim_start_whitespace_app w1 _ H1).
    change (trim_start (opening_fence ++ p ++ closing_fence ++ w2))
      with (opening_fence ++ p ++ closing_fence ++ w2).
    rewrite !app_assoc. rewrite (trim_end_whitespace_app w2 _ H2).
    change closing_fence with ([LF; BACKTICK; BACKTICK] ++ [BACKTICK]).
    rewrite !app_assoc. rewrite trim_end_snoc. reflexivity. }
  rewrite T, (replace_wrapped p ts L). reflexivity.
Qed.

Lemma jsonString_bare :
  forall w1 w2 p v,
    forallb is_whitespace w1 = true ->
    forallb is_whitespace w2 = true ->
    parse_json_text p = Some v ->
    ServerJs.jsonString (w1 ++ p ++ w2) = trim (trim p).
Proof.
  intros w1 w2 p v H1 H2 P. unfold ServerJs.jsonString.
  destruct (parse_json_text_lexed p v P) as [ts [L _]].
  assert (T : trim (w1 ++ p ++ w2) = trim p).
  { unfold trim. rewrite (trim_start_whitespace_app w1 _ H1).
    rewrite (trim_start_app_nonempty p w2 (parsed_text_has_content p v P)).
    apply trim_end_whitespace_app. exact H2. }
  rewrite T, (replace_lexed (trim p) ts (lex_trim p ts L)). reflexivity.
Qed.

(* ================================================================== *)
(** ** The response normalizer *)
(* ================================================================== *)

(** C5.  The model output made of the opening fence tagged json, a line
    feed, the text [{"gist":"a","keyPoints":"<ul></ul>","relevance":"b"}],
    a line feed and the closing fence is normalized to exactly the object
    with gist "a", keyPoints "<ul></ul>" and relevance "b", and that is what
    [generateSummary] returns for it.  More generally, for every text [p]
    that is JSON, white space around it and the fence wrapper are stripped
    and the result is the value of [p] itself, nothing added, removed or
    altered, whether [p] comes wrapped or bare. *)
Theorem normalizer_strips_wrapper :
  parse_json_text
    (ServerJs.jsonString
       (js "```json" ++ [LF]
        ++ dq "{'gist':'a','keyPoints':'<ul></ul>','relevance':'b'}"
        ++ [LF] ++ js "```"))
  = Some (JObject [(js "gist", JString (js "a"));
                   (js "keyPoints", JString (js "<ul></ul>"));
                   (js "relevance", JString (js "b"))])
  /\ (forall rt text title h,
         generateContent rt h (ServerJs.prompt text) = Returned fenced_output ->
         fst (ServerJs.generateSummary rt text title h) = Returned sample_summary)
  /\ (forall w1 w2 p v,
         forallb is_whitespace w1 = true ->
         forallb is_whitespace w2 = true ->
         parse_json_text p = Some v ->
         parse_json_text
           (ServerJs.jsonString (w1 ++ opening_fence ++ p ++ closing_fence ++ w2))
         = Some v
         /\ parse_json_text (ServerJs.jsonString (w1 ++ p ++ w2)) = Some v).
Proof.
  split; [vm_compute; reflexivity |]. split.
  - intros rt text title h G. run_exec. rewrite G.
    replace (parse_json_text (ServerJs.jsonString fenced_output))
      with (Some sample_summary) by (vm_compute; reflexivity).
    reflexivity.
  - intros w1 w2 p v H1 H2 P.
    destruct (parse_json_text_lexed p v P) as [ts [L _]]. split.
    + rewrite (jsonString_wrapped w1 w2 p ts H1 H2 L).
      apply parse_json_text_trim, P.
    + rewrite (jsonString_bare w1 w2 p v H1 H2 P).
      apply parse_json_text_trim, parse_json_text_trim, P.
Qed.

Lemma normalizer_strips_wrapper_witness :
  parse_json_text
    (ServerJs.jsonString
       ([32; 10]%N ++ opening_fence ++ dq "{'gist':'a','n':[true,null]}"
        ++ closing_fence ++ [10; 9]%N))
  = Some (JObject [(js "gist", JString (js "a"));
                   (js "n", JArray [JBool true; JNull])]).
Proof.
  exact (proj1 (proj2 (proj2 normalizer_strips_wrapper)
                  [32; 10]%N [10; 9]%N (dq "{'gist':'a','n':[true,null]}") _
                  eq_refl eq_refl eq_refl)).
Defined.

(* ================================================================== *)
(** ** The fence removal is global *)
(* ================================================================== *)

Lemma delete_matches_plain :
  forall piece rest,
    forallb starts_no_fence piece = true ->
    delete_matches fence_alternatives 0 (piece ++ rest)
    = piece ++ delete_matches fence_alternatives 0 rest.
Proof.
  induction piece as [| c piece IH]; intros rest H; [reflexivity |].
  cbn [forallb] in H. apply andb_true_iff in H. destruct H as [Hc Hp].
  unfold starts_no_fence in Hc. apply andb_true_iff in Hc.
  destruct Hc as [C1 C2].
  apply negb_true_iff, N.eqb_neq in C1. apply negb_true_iff, N.eqb_neq in C2.
  change ((c :: piece) ++ rest) with (c :: piece ++ rest).
  cbn [delete_matches].
  assert (F : first_match fence_alternatives (c :: piece ++ rest) = None).
  { unfold fence_alternatives. cbn [first_match].
    change opening_fence with (BACKTICK :: js "``json" ++ [LF]).
    change closing_fence with [LF; BACKTICK; BACKTICK; BACKTICK].
    cbn [starts_with].
    destruct (N.eqb_spec BACKTICK c); [congruence |].
    destruct (N.eqb_spec LF c); [congruence |]. reflexivity. }
  rewrite F, (IH rest Hp). reflexivity.
Qed.

Lemma replace_weave :
  forall pieces tail,
    forallb (fun piece => forallb starts_no_fence (fst piece)) pieces = true ->
    replace_all_with_empty fence_alternatives (weave pieces ++ tail)
    = concat (map fst pieces)
      ++ replace_all_with_empty fence_alternatives tail.
Proof.
  unfold replace_all_with_empty.
  induction pieces as [| [piece opening] pieces IH]; intros tail H;
    [reflexivity |].
  cbn [forallb fst] in H. apply andb_true_iff in H. destruct H as [Hp Hr].
  cbn [weave map concat fst]. rewrite <- !app_assoc.
  rewrite (delete_matches_plain piece _ Hp). f_equal.
  destruct opening.
  - change (delete_matches fence_alternatives 0
              (opening_fence ++ weave pieces ++ tail))
      with (delete_matches fence_alternatives 0 (weave pieces ++ tail)).
    exact (IH tail Hr).
  - change (delete_matches fence_alternatives 0
              (closing_fence ++ weave pieces ++ tail))
      with (delete_matches fence_alternatives 0 (weave pieces ++ tail)).
    exact (IH tail Hr).
Qed.

(** C9, as the code has it.  The replacement is global: a fence at the
    head of the text is deleted and the scan goes on behind it, so that any
    number of fences, wherever they stand between stretches of text that
    hold no back-tick and no line feed, are all deleted.  The scan runs from
    left to right and matches do not overlap: of an opening fence that
    follows a line feed only the back-ticks go, together with that line
    feed.  A text that is valid JSON, however, contains neither fence (a
    line feed cannot stand inside a string literal, nor a back-tick outside
    one), and the normalizer returns its value unchanged.  Only where the
    output is not valid JSON as it stands does the result differ from
    parsing the original: a closing fence inside a string literal makes the
    original unparseable, and the normalizer parses the mutated text. *)
Theorem fence_removal_is_global :
  (forall s,
      replace_all_with_empty fence_alternatives (opening_fence ++ s)
      = replace_all_with_empty fence_alternatives s
      /\ replace_all_with_empty fence_alternatives (closing_fence ++ s)
         = replace_all_with_empty fence_alternatives s)
  /\ (forall pieces tail,
         forallb (fun piece => forallb starts_no_fence (fst piece)) pieces = true ->
         replace_all_with_empty fence_alternatives (weave pieces ++ tail)
         = concat (map fst pieces)
           ++ replace_all_with_empty fence_alternatives tail)
  /\ replace_all_with_empty fence_alternatives
       (js "x" ++ [LF] ++ opening_fence ++ js "1")
     = js "xjson" ++ [LF] ++ js "1"
  /\ (forall s v,
         parse_json_text s = Some v ->
         ~ occurs_in opening_fence s
         /\ ~ occurs_in closing_fence s
         /\ parse_json_text (ServerJs.jsonString s) = Some v)
  /\ (occurs_in closing_fence (dq "['a" ++ [LF] ++ js "```" ++ dq "b']")
      /\ parse_json_text (dq "['a" ++ [LF] ++ js "```" ++ dq "b']") = None
      /\ parse_json_text
           (ServerJs.jsonString (dq "['a" ++ [LF] ++ js "```" ++ dq "b']"))
         = Some (JArray [JString (js "ab")])).
Proof.
  split; [intros s; split; reflexivity |].
  split; [exact replace_weave |].
  split; [vm_compute; reflexivity |]. split.
  - intros s v P. destruct (parse_json_text_lexed s v P) as [ts [L _]].
    destruct (lexed_has_no_fence s ts L) as [N1 N2].
    split; [exact N1 |]. split; [exact N2 |].
    rewrite <- (app_nil_r s) at 1. rewrite <- (app_nil_l (s ++ [])).
    rewrite (jsonString_bare [] [] s v eq_refl eq_refl P).
    apply parse_json_text_trim, parse_json_text_trim, P.
  - split; [| split; vm_compute; reflexivity].
    exists (dq "['a"), (dq "b']"). reflexivity.
Qed.

Lemma fence_removal_is_global_witness :
  replace_all_with_empty fence_alternatives
    (weave [(js "a", true); (js "b", false); (js "c", true)] ++ js "d")
  = js "abcd"
  /\ parse_json_text (ServerJs.jsonString (dq "{'a':[1,'x']}"))
     = Some (JObject [(js "a",
                       JArray [JNumber (add_int_digit empty_number 1);
                               JString (js "x")])]).
Proof.
  split.
  - exact (proj1 (proj2 fence_removal_is_global)
             [(js "a", true); (js "b", false); (js "c", true)] (js "d") eq_refl).
  - exact (proj2 (proj2 (proj1 (proj2 (proj2 (proj2 fence_removal_is_global)))
                           (dq "{'a':[1,'x']}") _ eq_refl))).
Defined.

(** C9 as stated does not hold: there is no valid JSON text that contains
    a fence, let alone one whose normalized value differs from its own. *)
Lemma valid_json_is_never_altered :
  ~ (exists s v,
        parse_json_text s = Some v
        /\ (occurs_in opening_fence s \/ occurs_in closing_fence s)
        /\ parse_json_text (ServerJs.jsonString s) <> parse_json_text s).
Proof.
  intros [s [v [P [[O | O] _]]]];
    destruct (parse_json_text_lexed s v P) as [ts [L _]];
    destruct (lexed_has_no_fence s ts L) as [N1 N2]; contradiction.
Qed.

(* ================================================================== *)
(** ** Beyond the claims: the gate and the error responses *)
(* ================================================================== *)

Lemma expected_events_start :
  forall rt url h, exists rest, expected_events rt url h = CallAxiosGet url :: rest.
Proof.
  intros rt url h. unfold expected_events.
  destruct (axios_get rt h url) as [data | e]; [| eauto].
  destruct (pdfParser rt _ data) as [text | e]; [| eauto].
  cbv zeta. destruct (generateContent rt _ _) as [raw | e]; [| eauto].
  destruct (parse_json_text _); eauto.
Qed.

(** X1.  The gate is JavaScript truthiness and nothing more: the request
    is answered 400 exactly when [url] or [title] is falsy, and the falsy
    values are the absent property, null, false, the empty string and a
    number that is zero.  Any other value, string or not, passes. *)
Theorem gate_is_truthiness :
  forall (rt : runtime) (body : list (jsstring * json)) (h : list event),
    (ServerJs.summarize rt body h
     = (Returned tt,
        [Respond 400
           (JObject
              [(js "error",
                JString (js "Missing 'url' or 'title' in request body."))])])
     <-> to_boolean (get_property (js "url") body) = false
         \/ to_boolean (get_property (js "title") body) = false)
    /\ (forall v : jsvalue,
           to_boolean v = false
           <-> v = None \/ v = Some JNull \/ v = Some (JBool false)
               \/ v = Some (JString [])
               \/ exists n, v = Some (JNumber n) /\ number_is_zero n = true).
Proof.
  intros rt body h. split.
  - split.
    + intros E. destruct (validated_or_not body) as [[Hu Ht] | Hbad].
      * rewrite (summarize_trace rt body h Hu Ht) in E.
        destruct (expected_events_start rt (get_property (js "url") body) h)
          as [rest R].
        rewrite R in E. discriminate E.
      * apply orb_true_iff in Hbad.
        destruct Hbad as [B | B]; apply negb_true_iff in B; auto.
    + intros F. apply summarize_invalid.
      destruct F as [F | F]; rewrite F; simpl; auto using orb_true_r.
  - intros v. split.
    + intros F. destruct v as [[| b | n | s | l | o] |]; simpl in F;
        try discriminate; auto.
      * subst b. auto.
      * apply negb_false_iff in F. do 4 right. eauto.
      * destruct s; [auto 6 | discriminate].
    + intros [E | [E | [E | [E | [n [E Z]]]]]]; subst v; simpl;
        try reflexivity.
      rewrite Z. reflexivity.
Qed.

Lemma gate_is_truthiness_witness :
  ServerJs.summarize
    (stub_runtime (Returned sample_pdf) (Returned (js "text"))
       (Returned fenced_output))
    [(js "url", JNumber (add_int_digit empty_number 0));
     (js "title", JString (js "Notice"))] []
  = (Returned tt, [Respond 400 error_400]).
Proof.
  apply (proj1 (gate_is_truthiness
                  (stub_runtime (Returned sample_pdf) (Returned (js "text"))
                     (Returned fenced_output))
                  [(js "url", JNumber (add_int_digit empty_number 0));
                   (js "title", JString (js "Notice"))] [])).
  left. reflexivity.
Defined.

(** X2.  A document that cannot be parsed as a PDF: when the fetch
    succeeds and the extraction throws an error whose message does not
    contain "JSON", the generator is not called and the answer is 500 with
    the details "External PDF access failure.". *)
Theorem extraction_failure_is_reported_as_pdf_failure :
  forall (rt : runtime) (body : list (jsstring * json)) (h : list event)
         (data : buffer) (e : js_error),
    let url := get_property (js "url") body in
    to_boolean url = true ->
    to_boolean (get_property (js "title") body) = true ->
    axios_get rt h url = Returned data ->
    pdfParser rt (h ++ [CallAxiosGet url]) data = Thrown e ->
    includes (message e) (js "JSON") = false ->
    ServerJs.summarize rt body h
    = (Returned tt,
       [CallAxiosGet url; CallPdfParser data; log_js e;
        Respond 500
          (JObject
             [(js "error",
               JString (js "Failed to process document or generate summary."));
              (js "details", JString (js "External PDF access failure."))])]).
Proof.
  intros rt body h data e url Hu Ht Hf Hx Hm.
  rewrite (summarize_trace rt body h Hu Ht). unfold expected_events.
  fold url. rewrite Hf, Hx. unfold error_500. rewrite Hm. reflexivity.
Qed.

Lemma extraction_failure_is_reported_as_pdf_failure_witness :
  responses
    (snd (ServerJs.summarize
            (stub_runtime (Returned [60; 104; 116; 109; 108; 62]%N)
               (Thrown {| message := js "Invalid PDF structure" |})
               (Returned fenced_output))
            (sample_body sample_url (js "Notice")) []))
  = [(500%Z, error_500_pdf)].
Proof.
  rewrite (extraction_failure_is_reported_as_pdf_failure
    (stub_runtime (Returned [60; 104; 116; 109; 108; 62]%N)
       (Thrown {| message := js "Invalid PDF structure" |})
       (Returned fenced_output))
    (sample_body sample_url (js "Notice")) []
    [60; 104; 116; 109; 108; 62]%N
    {| message := js "Invalid PDF structure" |}
    eq_refl eq_refl eq_refl eq_refl eq_refl).
  reflexivity.
Defined.

(** X3.  A failure of the generation call is told from a failure of the
    download by the message alone: when fetch and extraction succeed and
    the call to the model throws an error whose message does not contain
    "JSON" (a quota or authentication error, say), the answer is 500 with
    the details "External PDF access failure.". *)
Theorem generation_failure_is_reported_as_pdf_failure :
  forall (rt : runtime) (body : list (jsstring * json)) (h : list event)
         (data : buffer) (text : jsstring) (e : js_error),
    let url := get_property (js "url") body in
    to_boolean url = true ->
    to_boolean (get_property (js "title") body) = true ->
    axios_get rt h url = Returned data ->
    pdfParser rt (h ++ [CallAxiosGet url]) data = Returned text ->
    generateContent rt (h ++ [CallAxiosGet url; CallPdfParser data])
      (ServerJs.prompt text) = Thrown e ->
    includes (message e) (js "JSON") = false ->
    ServerJs.summarize rt body h
    = (Returned tt,
       [CallAxiosGet url; CallPdfParser data;
        CallGenerateContent (ServerJs.prompt text); log_js e;
        Respond 500
          (JObject
             [(js "error",
               JString (js "Failed to process document or generate summary."));
              (js "details", JString (js "External PDF access failure."))])]).
Proof.
  intros rt body h data text e url Hu Ht Hf Hx Hg Hm.
  rewrite (summarize_trace rt body h Hu Ht). unfold expected_events.
  fold url. rewrite Hf, Hx. cbv zeta. rewrite Hg.
  unfold error_500. rewrite Hm. reflexivity.
Qed.

Lemma generation_failure_is_reported_as_pdf_failure_witness :
  responses
    (snd (ServerJs.summarize
            (stub_runtime (Returned sample_pdf) (Returned (js "text"))
               (Thrown {| message := js "429 Too Many Requests: quota exceeded" |}))
            (sample_body sample_url (js "Notice")) []))
  = [(500%Z, error_500_pdf)].
Proof.
  rewrite (generation_failure_is_reported_as_pdf_failure
    (stub_runtime (Returned sample_pdf) (Returned (js "text"))
       (Thrown {| message := js "429 Too Many Requests: quota exceeded" |}))
    (sample_body sample_url (js "Notice")) [] sample_pdf (js "text")
    {| message := js "429 Too Many Requests: quota exceeded" |}
    eq_refl eq_refl eq_refl eq_refl eq_refl eq_refl).
  reflexivity.
Defined.

Lemma error_500_cases :
  forall e, error_500 e = error_500_json \/ error_500 e = error_500_pdf.
Proof.
  intros e. unfold error_500.
  destruct (includes (message e) (js "JSON")); auto.
Qed.

(** X4.  Nothing of a caught error reaches the client: a response that is
    not a 200 carries one of three constant bodies, the 400 body or one of
    the two 500 bodies, whatever was thrown and whatever its message. *)
Theorem error_bodies_are_constant :
  forall (rt : runtime) (body : list (jsstring * json)) (h : list event)
         (status : Z) (b : json),
    In (status, b) (responses (snd (ServerJs.summarize rt body h))) ->
    status = 200%Z
    \/ (status = 400%Z
        /\ b = JObject
                 [(js "error",
                   JString (js "Missing 'url' or 'title' in request body."))])
    \/ (status = 500%Z
        /\ (b = JObject
                  [(js "error",
                    JString (js "Failed to process document or generate summary."));
                   (js "details",
                    JString (js "AI structure error or malformed response."))]
            \/ b = JObject
                     [(js "error",
                       JString (js "Failed to process document or generate summary."));
                      (js "details",
                       JString (js "External PDF access failure."))])).
Proof.
  intros rt body h status b H.
  assert (K : forall e, In (status, b) [(500%Z, error_500 e)] ->
                status = 500%Z /\ (b = error_500_json \/ b = error_500_pdf)).
  { intros e [E | []]. inversion E. split; [reflexivity |].
    apply error_500_cases. }
  destruct (validated_or_not body) as [[Hu Ht] | Hbad].
  - rewrite (summarize_trace rt body h Hu Ht) in H. unfold expected_events in H.
    destruct (axios_get rt h _) as [data | e];
      [| right; right; exact (K e H)].
    destruct (pdfParser rt _ data) as [text | e];
      [| right; right; exact (K e H)].
    cbv zeta in H. destruct (generateContent rt _ _) as [raw | e];
      [| right; right; exact (K e H)].
    destruct (parse_json_text _); [| right; right; exact (K _ H)].
    destruct H as [E | []]. inversion E. auto.
  - rewrite (summarize_invalid rt body h Hbad) in H.
    destruct H as [E | []]. inversion E. auto.
Qed.

Lemma error_bodies_are_constant_witness :
  500%Z = 200%Z
  \/ (500%Z = 400%Z /\ error_500_json = error_400)
  \/ (500%Z = 500%Z
      /\ (error_500_json = error_500_json \/ error_500_json = error_500_pdf)).
Proof.
  apply (error_bodies_are_constant
           (stub_runtime
              (Thrown {| message := js "Unexpected JSON secret=hunter2" |})
              (Returned (js "text")) (Returned fenced_output))
           (sample_body sample_url (js "Notice")) []).
  left. reflexivity.
Defined.

(* ================================================================== *)
(** ** Beyond the claims: what the classifier looks for *)
(* ================================================================== *)

Lemma starts_with_app :
  forall p post, starts_with p (p ++ post) = true.
Proof.
  induction p as [| c p IH]; intros post; [reflexivity |].
  cbn [app starts_with]. rewrite N.eqb_refl. exact (IH post).
Qed.

Lemma starts_with_prefix :
  forall p s, starts_with p s = true -> exists post, s = p ++ post.
Proof.
  induction p as [| c p IH]; intros s H; [exists s; reflexivity |].
  destruct s as [| d s]; [discriminate |].
  cbn [starts_with] in H. apply andb_true_iff in H. destruct H as [E H].
  apply N.eqb_eq in E. subst d.
  destruct (IH s H) as [post P]. exists post. rewrite P. reflexivity.
Qed.

Lemma includes_unfold :
  forall s p,
    includes s p
    = starts_with p s
      || match s with [] => false | _ :: s' => includes s' p end.
Proof. intros s p. destruct s; reflexivity. Qed.

(** [includes] finds exactly the occurrences. *)
Lemma includes_occurs :
  forall s p, includes s p = true <-> occurs_in p s.
Proof.
  intros s p. split.
  - induction s as [| c s IH]; intros H; rewrite includes_unfold in H;
      apply orb_true_iff in H; destruct H as [H | H].
    + destruct (starts_with_prefix p [] H) as [post P].
      exists [], post. exact P.
    + discriminate.
    + destruct (starts_with_prefix p (c :: s) H) as [post P].
      exists [], post. exact P.
    + destruct (IH H) as [pre [post P]].
      exists (c :: pre), post. rewrite P. reflexivity.
  - intros [pre [post P]]. subst s.
    induction pre as [| c pre IH]; rewrite includes_unfold.
    + cbn [app]. rewrite starts_with_app. reflexivity.
    + cbn [app]. rewrite IH. apply orb_true_r.
Qed.

(** X5.  The classifier is a case-sensitive search for the four code
    units J, S, O, N anywhere in the message: the 500 body carries the
    details "AI structure error or malformed response." exactly when the
    message of the caught error contains them in a row, and the details
    "External PDF access failure." exactly when it does not. *)
Theorem details_follow_occurrence_of_JSON :
  forall (e : js_error),
    (error_500 e
     = JObject
         [(js "error",
           JString (js "Failed to process document or generate summary."));
          (js "details",
           JString (js "AI structure error or malformed response."))]
     <-> occurs_in [74; 83; 79; 78]%N (message e))
    /\ (error_500 e
        = JObject
            [(js "error",
              JString (js "Failed to process document or generate summary."));
             (js "details", JString (js "External PDF access failure."))]
        <-> ~ occurs_in [74; 83; 79; 78]%N (message e)).
Proof.
  intros e.
  pose proof (includes_occurs (message e) (js "JSON")) as I.
  change (js "JSON") with [74; 83; 79; 78]%N in I.
  unfold error_500. change (js "JSON") with [74; 83; 79; 78]%N.
  destruct (includes (message e) [74; 83; 79; 78]%N) eqn:F.
  - split; split; intros H.
    + apply I. reflexivity.
    + reflexivity.
    + discriminate H.
    + exfalso. apply H, I. reflexivity.
  - split; split; intros H.
    + discriminate H.
    + apply I in H. discriminate H.
    + intros O. apply I in O. discriminate O.
    + reflexivity.
Qed.

Lemma details_follow_occurrence_of_JSON_witness :
  error_500 {| message := js "Unexpected token in json at position 0" |}
  = error_500_pdf.
Proof.
  apply (proj2 (details_follow_occurrence_of_JSON
                  {| message := js "Unexpected token in json at position 0" |})).
  intros O.
  apply (includes_occurs (js "Unexpected token in json at position 0")
           (js "JSON")) in O.
  discriminate O.
Defined.

(* ================================================================== *)
(** ** Beyond the claims: what is accepted as a summary *)
(* ================================================================== *)

(** X6.  No shape is asked of the summary: when fetch and extraction
    succeed and the model answers with a JSON text, bare or in the json
    fence, with white space around it, the three stages have run and the
    request is answered with status 200, whatever value the text denotes
    (an array, a number, an object without gist).  What the body of that
    response looks like on the wire is left to [res.json]. *)
Theorem any_json_value_is_a_summary :
  forall (rt : runtime) (body : list (jsstring * json)) (h : list event)
         (data : buffer) (text raw w1 w2 p : jsstring) (v : json),
    let url := get_property (js "url") body in
    to_boolean url = true ->
    to_boolean (get_property (js "title") body) = true ->
    axios_get rt h url = Returned data ->
    pdfParser rt (h ++ [CallAxiosGet url]) data = Returned text ->
    generateContent rt (h ++ [CallAxiosGet url; CallPdfParser data])
      (ServerJs.prompt text) = Returned raw ->
    forallb is_whitespace w1 = true ->
    forallb is_whitespace w2 = true ->
    raw = w1 ++ p ++ w2
    \/ raw = w1 ++ opening_fence ++ p ++ closing_fence ++ w2 ->
    parse_json_text p = Some v ->
    fst (ServerJs.summarize rt body h) = Returned tt
    /\ calls (snd (ServerJs.summarize rt body h))
       = [CallAxiosGet url; CallPdfParser data;
          CallGenerateContent (ServerJs.prompt text)]
    /\ map fst (responses (snd (ServerJs.summarize rt body h))) = [200%Z].
Proof.
  intros rt body h data text raw w1 w2 p v url Hu Ht Hf Hx Hg H1 H2 Hraw P.
  assert (N : parse_json_text (ServerJs.jsonString raw) = Some v).
  { destruct (parse_json_text_lexed p v P) as [ts [L _]].
    destruct Hraw as [E | E]; subst raw.
    - rewrite (jsonString_bare w1 w2 p v H1 H2 P).
      apply parse_json_text_trim, parse_json_text_trim, P.
    - rewrite (jsonString_wrapped w1 w2 p ts H1 H2 L).
      apply parse_json_text_trim, P. }
  rewrite (summarize_trace rt body h Hu Ht). unfold expected_events.
  fold url. rewrite Hf, Hx. cbv zeta. rewrite Hg, N.
  repeat split.
Qed.

Lemma any_json_value_is_a_summary_witness :
  map fst
    (responses
       (snd (ServerJs.summarize
               (stub_runtime (Returned sample_pdf) (Returned (js "text"))
                  (Returned ([32]%N ++ dq "[null, false]" ++ [LF])))
               (sample_body sample_url (js "Notice")) [])))
  = [200%Z].
Proof.
  exact (proj2 (proj2 (any_json_value_is_a_summary
    (stub_runtime (Returned sample_pdf) (Returned (js "text"))
       (Returned ([32]%N ++ dq "[null, false]" ++ [LF])))
    (sample_body sample_url (js "Notice")) [] sample_pdf (js "text")
    ([32]%N ++ dq "[null, false]" ++ [LF]) [32]%N [LF] (dq "[null, false]")
    (JArray [JNull; JBool false])
    eq_refl eq_refl eq_refl eq_refl eq_refl eq_refl eq_refl
    (or_introl eq_refl) eq_refl))).
Defined.

(* ================================================================== *)
(** ** Beyond the claims: where the two server files part *)
(* ================================================================== *)

Lemma cjs_summarize_trace :
  forall rt body h,
    to_boolean (get_property (js "url") body) = true ->
    to_boolean (get_property (js "title") body) = true ->
    snd (ServerCjs.summarize rt body h)
    = let url := get_property (js "url") body in
      match axios_get rt h url with
      | Thrown e => [CallAxiosGet url; log_cjs e; Respond 500 (error_500 e)]
      | Returned data =>
          match pdfParser rt (h ++ [CallAxiosGet url]) data with
          | Thrown e =>
              [CallAxiosGet url; CallPdfParser data;
               log_cjs e; Respond 500 (error_500 e)]
          | Returned text =>
              match generateContent rt
                      (h ++ [CallAxiosGet url; CallPdfParser data])
                      (ServerJs.prompt text) with
              | Thrown e =>
                  [CallAxiosGet url; CallPdfParser data;
                   CallGenerateContent (ServerJs.prompt text);
                   log_cjs e; Respond 500 (error_500 e)]
              | Returned raw =>
                  match parse_json_text (ServerJs.jsonString raw) with
                  | None =>
                      let e := {| message :=
                                    syntax_error_message rt
                                      (ServerJs.jsonString raw) |} in
                      [CallAxiosGet url; CallPdfParser data;
                       CallGenerateContent (ServerJs.prompt text);
                       log_cjs e; Respond 500 (error_500 e)]
                  | Some summary =>
                      [CallAxiosGet url; CallPdfParser data;
                       CallGenerateContent (ServerJs.prompt text);
                       Respond 200 summary]
                  end
              end
          end
      end.
Proof.
  intros rt body h Hu Ht. unfold ServerCjs.summarize. rewrite Hu, Ht.
  cbv zeta. cbn [negb orb]. run_exec.
  destruct (axios_get rt h _) as [data | e]; simpl; [| reflexivity].
  destruct (pdfParser rt _ data) as [text | e]; simpl; [| reflexivity].
  destruct (generateContent rt _ _) as [raw | e]; simpl; [| reflexivity].
  unfold ServerCjs.jsonString, ServerJs.jsonString.
  destruct (parse_json_text _); reflexivity.
Qed.

(** X7.  The two files leave the same trace exactly when nothing fails:
    a request answered 200 or 400 produces the same events under
    [server.js] and [server.cjs], and a request answered 500 does not,
    because the first logs the message of the error and the second the
    error object. *)
Theorem server_files_part_on_failure :
  forall (rt : runtime) (body : list (jsstring * json)) (h : list event),
    snd (ServerJs.summarize rt body h) = snd (ServerCjs.summarize rt body h)
    <-> (forall b, ~ In (500%Z, b)
                     (responses (snd (ServerJs.summarize rt body h)))).
Proof.
  intros rt body h.
  destruct (validated_or_not body) as [[Hu Ht] | Hbad].
  - rewrite (cjs_summarize_trace rt body h Hu Ht).
    rewrite (summarize_trace rt body h Hu Ht). unfold expected_events.
    cbv zeta. cbn [snd].
    destruct (axios_get rt h _) as [data | e].
    2:{ split; [discriminate | intros H; exfalso; apply (H (error_500 e))];
        simpl; auto. }
    destruct (pdfParser rt _ data) as [text | e].
    2:{ split; [discriminate | intros H; exfalso; apply (H (error_500 e))];
        simpl; auto. }
    destruct (generateContent rt _ _) as [raw | e].
    2:{ split; [discriminate | intros H; exfalso; apply (H (error_500 e))];
        simpl; auto. }
    destruct (parse_json_text _).
    + split; [| reflexivity]. intros _ b [E | []]. discriminate E.
    + split; [discriminate |]. intros H. exfalso.
      apply (H (error_500 {| message :=
                               syntax_error_message rt (ServerJs.jsonString raw) |})).
      simpl. auto.
  - rewrite (summarize_invalid rt body h Hbad).
    unfold ServerCjs.summarize. rewrite Hbad.
    split; [| reflexivity]. intros _ b [E | []]. discriminate E.
Qed.

(* ================================================================== *)
(** ** Beyond the claims: what the normalizer leaves in place *)
(* ================================================================== *)

Lemma trim_start_decompose :
  forall s, exists w,
    s = w ++ trim_start s /\ forallb is_whitespace w = true.
Proof.
  induction s as [| c s IH]; [exists []; auto |].
  cbn [trim_start]. destruct (is_whitespace c) eqn:W.
  - destruct IH as [w [E F]]. exists (c :: w). cbn [app forallb].
    rewrite W, F, <- E. auto.
  - exists []. auto.
Qed.

Lemma trim_end_decompose :
  forall s, exists w,
    s = trim_end s ++ w /\ forallb is_whitespace w = true.
Proof.
  induction s as [| c s IH] using rev_ind; [exists []; auto |].
  rewrite trim_end_snoc. destruct (is_whitespace c) eqn:W.
  - destruct IH as [w [E F]]. exists (w ++ [c]).
    rewrite forallb_app, F. cbn [forallb]. rewrite W.
    rewrite app_assoc, <- E. auto.
  - exists []. rewrite app_nil_r. auto.
Qed.

Lemma trim_start_head :
  forall s c r, trim_start s = c :: r -> is_whitespace c = false.
Proof.
  induction s as [| d s IH]; intros c r H; [discriminate |].
  cbn [trim_start] in H. destruct (is_whitespace d) eqn:W.
  - exact (IH c r H).
  - inversion H. subst. exact W.
Qed.

Lemma trim_start_fixed :
  forall s, trim_start (trim_start s) = trim_start s.
Proof.
  intros s. destruct (trim_start s) as [| c r] eqn:E; [reflexivity |].
  cbn [trim_start]. rewrite (trim_start_head s c r E). reflexivity.
Qed.

Lemma trim_end_fixed :
  forall s, trim_end (trim_end s) = trim_end s.
Proof.
  intros s. unfold trim_end. rewrite rev_involutive, trim_start_fixed.
  reflexivity.
Qed.

(** Trimming the end keeps a head that is not white space. *)
Lemma trim_end_keeps_head :
  forall c x, is_whitespace c = false ->
    exists y w, trim_end (c :: x) = c :: y /\ x = y ++ w.
Proof.
  intros c x W. destruct (trim_end_decompose (c :: x)) as [w [E F]].
  destruct (trim_end (c :: x)) as [| d y].
  - cbn [app] in E. subst w. cbn [forallb] in F. rewrite W in F. discriminate.
  - cbn [app] in E. inversion E. subst d. exists y, w. auto.
Qed.

Lemma trim_fixed :
  forall s, trim (trim s) = trim s.
Proof.
  intros s. unfold trim.
  destruct (trim_start s) as [| c r] eqn:E; [reflexivity |].
  pose proof (trim_start_head s c r E) as W.
  destruct (trim_end_keeps_head c r W) as [y [w [T _]]].
  rewrite T. cbn [trim_start]. rewrite W, <- T. apply trim_end_fixed.
Qed.

Lemma trim_is_inside :
  forall s, exists a b, s = a ++ trim s ++ b.
Proof.
  intros s. unfold trim.
  destruct (trim_start_decompose s) as [a [E _]].
  destruct (trim_end_decompose (trim_start s)) as [b [F _]].
  exists a, b. rewrite <- F. exact E.
Qed.

Lemma starts_with_longer :
  forall p a b, starts_with p a = true -> starts_with p (a ++ b) = true.
Proof.
  intros p a b H. destruct (starts_with_prefix p a H) as [post P]. subst a.
  rewrite <- app_assoc. apply starts_with_app.
Qed.

(** X8.  Only the fence tagged json in lower case and followed at once by
    a line feed is removed at the head of the output.  An output that,
    after leading white space, starts with a back-tick but not with that
    fence (an untagged fence, another tag, a carriage return before the line
    feed) keeps its back-tick and is never parsed: [JSON.parse] throws. *)
Theorem other_fences_are_not_stripped :
  forall (w x : jsstring),
    forallb is_whitespace w = true ->
    starts_with opening_fence (BACKTICK :: x) = false ->
    parse_json_text (ServerJs.jsonString (w ++ BACKTICK :: x)) = None.
Proof.
  intros w x Hw Hx. unfold ServerJs.jsonString.
  assert (T : exists y w', trim (w ++ BACKTICK :: x) = BACKTICK :: y
                           /\ x = y ++ w').
  { unfold trim. rewrite (trim_start_whitespace_app w _ Hw).
    change (trim_start (BACKTICK :: x)) with (BACKTICK :: x).
    apply trim_end_keeps_head. reflexivity. }
  destruct T as [y [w' [T E]]]. rewrite T.
  assert (F : first_match fence_alternatives (BACKTICK :: y) = None).
  { unfold fence_alternatives. cbn [first_match].
    destruct (starts_with opening_fence (BACKTICK :: y)) eqn:O.
    - apply (starts_with_longer _ _ w') in O.
      cbn [app] in O. rewrite <- E, Hx in O. discriminate O.
    - reflexivity. }
  unfold replace_all_with_empty. cbn [delete_matches]. rewrite F.
  unfold trim. change (trim_start (BACKTICK :: ?z)) with (BACKTICK :: z).
  destruct (trim_end_keeps_head BACKTICK
              (delete_matches fence_alternatives 0 y) eq_refl)
    as [z [w2 [Z _]]].
  cbn [trim_start]. change (is_whitespace BACKTICK) with false. cbv iota.
  rewrite Z. reflexivity.
Qed.

Lemma other_fences_are_not_stripped_witness :
  parse_json_text
    (ServerJs.jsonString
       ([LF] ++ js "```" ++ [LF] ++ dq "{'gist':'a'}" ++ [LF] ++ js "```"))
  = None
  /\ parse_json_text
       (ServerJs.jsonString
          (js "```json" ++ [13; 10]%N ++ dq "{'gist':'a'}" ++ [13; 10]%N
           ++ js "```"))
     = None.
Proof.
  split.
  - exact (other_fences_are_not_stripped [LF]
             (js "``" ++ [LF] ++ dq "{'gist':'a'}" ++ [LF] ++ js "```")
             eq_refl eq_refl).
  - exact (other_fences_are_not_stripped []
             (js "``json" ++ [13; 10]%N ++ dq "{'gist':'a'}" ++ [13; 10]%N
              ++ js "```")
             eq_refl eq_refl).
Defined.

Lemma occurs_in_tail :
  forall p c s, occurs_in p s -> occurs_in p (c :: s).
Proof.
  intros p c s [pre [post E]]. exists (c :: pre), post. rewrite E. reflexivity.
Qed.

Lemma delete_matches_without_fence :
  forall s,
    ~ occurs_in opening_fence s ->
    ~ occurs_in closing_fence s ->
    delete_matches fence_alternatives 0 s = s.
Proof.
  induction s as [| c s IH]; intros No Nc; [reflexivity |].
  cbn [delete_matches].
  assert (F : first_match fence_alternatives (c :: s) = None).
  { unfold fence_alternatives. cbn [first_match].
    destruct (starts_with opening_fence (c :: s)) eqn:O.
    { exfalso. apply No. destruct (starts_with_prefix _ _ O) as [post P].
      exists [], post. exact P. }
    destruct (starts_with closing_fence (c :: s)) eqn:C; [| reflexivity].
    exfalso. apply Nc. destruct (starts_with_prefix _ _ C) as [post P].
    exists [], post. exact P. }
  rewrite F. f_equal. apply IH.
  - intros O. apply No, occurs_in_tail, O.
  - intros O. apply Nc, occurs_in_tail, O.
Qed.

(** X9.  The normalizer removes nothing but the two fences and the white
    space around the text: an output in which neither fence occurs comes
    out as its own trimmed text, so that leading commentary or any other
    wrapping is left for [JSON.parse] to reject. *)
Theorem output_without_fence_is_only_trimmed :
  forall (raw : jsstring),
    ~ occurs_in opening_fence raw ->
    ~ occurs_in closing_fence raw ->
    ServerJs.jsonString raw = trim raw.
Proof.
  intros raw No Nc. unfold ServerJs.jsonString, replace_all_with_empty.
  destruct (trim_is_inside raw) as [a [b E]].
  rewrite delete_matches_without_fence.
  - apply trim_fixed.
  - intros [pre [post O]]. apply No. exists (a ++ pre), (post ++ b).
    rewrite E at 1. rewrite O, <- !app_assoc. reflexivity.
  - intros [pre [post O]]. apply Nc. exists (a ++ pre), (post ++ b).
    rewrite E at 1. rewrite O, <- !app_assoc. reflexivity.
Qed.

Lemma no_backtick_no_fence :
  forall s,
    includes s [BACKTICK] = false ->
    ~ occurs_in opening_fence s /\ ~ occurs_in closing_fence s.
Proof.
  intros s H. split; intros [pre [post E]].
  - assert (O : occurs_in [BACKTICK] s).
    { exists pre, (js "``json" ++ [LF] ++ post). rewrite E. reflexivity. }
    apply includes_occurs in O. congruence.
  - assert (O : occurs_in [BACKTICK] s).
    { exists (pre ++ [LF]), (js "``" ++ post). rewrite E, <- app_assoc.
      reflexivity. }
    apply includes_occurs in O. congruence.
Qed.

Lemma output_without_fence_is_only_trimmed_witness :
  ServerJs.jsonString (js "  Here is the summary: {}" ++ [LF])
  = js "Here is the summary: {}".
Proof.
  rewrite (output_without_fence_is_only_trimmed
             (js "  Here is the summary: {}" ++ [LF])
             (proj1 (no_backtick_no_fence
                       (js "  Here is the summary: {}" ++ [LF]) eq_refl))
             (proj2 (no_backtick_no_fence
                       (js "  Here is the summary: {}" ++ [LF]) eq_refl))).
  reflexivity.
Defined.

(** X10.  An output that is empty or white space only is not a summary:
    the normalizer hands the empty text to [JSON.parse], which throws. *)
Theorem blank_output_is_rejected :
  forall (raw : jsstring),
    forallb is_whitespace raw = true ->
    ServerJs.jsonString raw = [] /\ parse_json_text (ServerJs.jsonString raw) = None.
Proof.
  intros raw H.
  assert (T : trim raw = []).
  { unfold trim. rewrite <- (app_nil_r raw).
    rewrite (trim_start_whitespace_app raw [] H). reflexivity. }
  unfold ServerJs.jsonString. rewrite T. split; reflexivity.
Qed.

Lemma blank_output_is_rejected_witness :
  parse_json_text (ServerJs.jsonString [32; 10; 9; 160]%N) = None.
Proof.
  exact (proj2 (blank_output_is_rejected [32; 10; 9; 160]%N eq_refl)).
Defined.

(* ================================================================== *)
(** ** Beyond the claims: which documents the model can tell apart *)
(* ================================================================== *)

(** X11.  Two extracted texts give the same prompt exactly when they agree
    on their first 15000 code units: the model is never shown a difference
    that lies beyond that offset, and is shown every difference before
    it. *)
Theorem prompts_agree_iff_prefixes_agree :
  forall (text1 text2 : jsstring),
    ServerJs.prompt text1 = ServerJs.prompt text2
    <-> firstn (Z.to_nat 15000) text1 = firstn (Z.to_nat 15000) text2.
Proof.
  intros text1 text2. unfold ServerJs.prompt.
  rewrite !slice_from_start by lia.
  generalize (Z.to_nat 15000). intros n. split.
  - apply app_inv_head.
  - intros E. rewrite E. reflexivity.
Qed.

(* ================================================================== *)
(** ** Beyond the claims: the CORS middleware *)
(* ================================================================== *)

Lemma jsstring_eqb_eq :
  forall a b, jsstring_eqb a b = true <-> a = b.
Proof.
  induction a as [| x a IH]; intros [| y b]; cbn [jsstring_eqb];
    try (split; [discriminate | discriminate]); [split; reflexivity |].
  rewrite andb_true_iff, N.eqb_eq, IH. split.
  - intros [E1 E2]. subst. reflexivity.
  - intros E. inversion E. auto.
Qed.

Lemma jsstring_eqb_refl : forall a, jsstring_eqb a a = true.
Proof. intros a. apply jsstring_eqb_eq. reflexivity. Qed.

Lemma jsstring_eqb_neq :
  forall a b, a <> b -> jsstring_eqb a b = false.
Proof.
  intros a b N. destruct (jsstring_eqb a b) eqn:E; [| reflexivity].
  apply jsstring_eqb_eq in E. contradiction.
Qed.

Lemma lookup_store_same :
  forall k v hs, lookup_header k (store_header k v hs) = Some v.
Proof.
  intros k v. induction hs as [| [k' v'] hs IH]; cbn [store_header].
  - cbn [lookup_header]. rewrite jsstring_eqb_refl. reflexivity.
  - destruct (jsstring_eqb k k') eqn:E; cbn [lookup_header]; rewrite E;
      [reflexivity | exact IH].
Qed.

Lemma lookup_store_other :
  forall k k' v hs,
    k <> k' -> lookup_header k' (store_header k v hs) = lookup_header k' hs.
Proof.
  intros k k' v hs N. induction hs as [| [k0 v0] hs IH]; cbn [store_header].
  - cbn [lookup_header]. rewrite (jsstring_eqb_neq k' k) by congruence.
    reflexivity.
  - destruct (jsstring_eqb k k0) eqn:E; cbn [lookup_header].
    + apply jsstring_eqb_eq in E. subst k0.
      rewrite (jsstring_eqb_neq k' k) by congruence. reflexivity.
    + rewrite IH. reflexivity.
Qed.

Lemma store_present :
  forall k v hs, lookup_header k hs = Some v -> store_header k v hs = hs.
Proof.
  intros k v. induction hs as [| [k' v'] hs IH]; intros H; [discriminate |].
  cbn [lookup_header] in H. cbn [store_header].
  destruct (jsstring_eqb k k') eqn:E.
  - inversion H. reflexivity.
  - rewrite (IH H). reflexivity.
Qed.

Lemma cors_header_names_differ :
  to_lower (js "Access-Control-Allow-Origin")
  <> to_lower (js "Access-Control-Allow-Headers")
  /\ to_lower (js "Access-Control-Allow-Origin")
     <> to_lower (js "Access-Control-Allow-Methods")
  /\ to_lower (js "Access-Control-Allow-Headers")
     <> to_lower (js "Access-Control-Allow-Methods").
Proof. repeat split; intros E; vm_compute in E; discriminate E. Qed.

(** X12.  After the CORS middleware the response allows every origin,
    the header Content-Type and the methods POST and OPTIONS, whatever the
    request (its method, path and Origin are not looked at) and whatever
    these headers held before, under any spelling of their names; and the
    request is always handed on. *)
Theorem cors_sets_the_three_headers :
  forall (req : request) (hs : headers) (name : jsstring),
    (to_lower name = to_lower (js "Access-Control-Allow-Origin") ->
     get_header name (fst (ServerJs.cors req hs)) = Some (js "*"))
    /\ (to_lower name = to_lower (js "Access-Control-Allow-Headers") ->
        get_header name (fst (ServerJs.cors req hs)) = Some (js "Content-Type"))
    /\ (to_lower name = to_lower (js "Access-Control-Allow-Methods") ->
        get_header name (fst (ServerJs.cors req hs)) = Some (js "POST, OPTIONS"))
    /\ snd (ServerJs.cors req hs) = CallsNext.
Proof.
  intros req hs name.
  destruct cors_header_names_differ as [D1 [D2 D3]].
  unfold ServerJs.cors, get_header, set_header. cbn [fst snd].
  repeat split; intros E; rewrite E.
  - rewrite lookup_store_other by congruence.
    rewrite lookup_store_other by congruence.
    apply lookup_store_same.
  - rewrite lookup_store_other by congruence. apply lookup_store_same.
  - apply lookup_store_same.
Qed.

Lemma cors_sets_the_three_headers_witness :
  get_header (js "access-control-allow-origin")
    (fst (ServerJs.cors
            {| req_method := js "DELETE"; req_path := js "/nowhere";
               req_headers := [(js "origin", js "https://evil.example")] |}
            [(js "access-control-allow-origin", js "https://app.example")]))
  = Some (js "*").
Proof.
  exact (proj1 (cors_sets_the_three_headers
                  {| req_method := js "DELETE"; req_path := js "/nowhere";
                     req_headers := [(js "origin", js "https://evil.example")] |}
                  [(js "access-control-allow-origin", js "https://app.example")]
                  (js "access-control-allow-origin")) eq_refl).
Defined.

(** X13.  The CORS middleware touches nothing else: every header other
    than the three it sets reads as before, and running it again, for
    whatever request, changes nothing more. *)
Theorem cors_keeps_the_other_headers :
  forall (req req' : request) (hs : headers) (name : jsstring),
    (to_lower name <> to_lower (js "Access-Control-Allow-Origin") ->
     to_lower name <> to_lower (js "Access-Control-Allow-Headers") ->
     to_lower name <> to_lower (js "Access-Control-Allow-Methods") ->
     get_header name (fst (ServerJs.cors req hs)) = get_header name hs)
    /\ fst (ServerJs.cors req' (fst (ServerJs.cors req hs)))
       = fst (ServerJs.cors req hs).
Proof.
  intros req req' hs name.
  destruct cors_header_names_differ as [D1 [D2 D3]]. split.
  - intros N1 N2 N3. unfold ServerJs.cors, get_header, set_header. cbn [fst].
    rewrite !lookup_store_other by congruence. reflexivity.
  - unfold ServerJs.cors, set_header. cbn [fst].
    set (o := to_lower (js "Access-Control-Allow-Origin")) in *.
    set (a := to_lower (js "Access-Control-Allow-Headers")) in *.
    set (m := to_lower (js "Access-Control-Allow-Methods")) in *.
    set (hs3 := store_header m (js "POST, OPTIONS")
                  (store_header a (js "Content-Type")
                     (store_header o (js "*") hs))).
    assert (Lo : lookup_header o hs3 = Some (js "*")).
    { unfold hs3. rewrite !lookup_store_other by congruence.
      apply lookup_store_same. }
    assert (La : lookup_header a hs3 = Some (js "Content-Type")).
    { unfold hs3. rewrite lookup_store_other by congruence.
      apply lookup_store_same. }
    assert (Lm : lookup_header m hs3 = Some (js "POST, OPTIONS")).
    { unfold hs3. apply lookup_store_same. }
    rewrite (store_present o _ hs3 Lo), (store_present a _ hs3 La).
    apply (store_present m _ hs3 Lm).
Qed.

Lemma cors_keeps_the_other_headers_witness :
  get_header (js "Content-Type")
    (fst (ServerJs.cors
            {| req_method := js "POST"; req_path := js "/summarize";
               req_headers := [] |}
            [(js "content-type", js "application/json")]))
  = Some (js "application/json").
Proof.
  exact (proj1 (cors_keeps_the_other_headers
                  {| req_method := js "POST"; req_path := js "/summarize";
                     req_headers := [] |}
                  {| req_method := js "POST"; req_path := js "/summarize";
                     req_headers := [] |}
                  [(js "content-type", js "application/json")]
                  (js "Content-Type"))
           ltac:(intros E; vm_compute in E; discriminate E)
           ltac:(intros E; vm_compute in E; discriminate E)
           ltac:(intros E; vm_compute in E; discriminate E)).
Defined.
